(** * Query layer of umami: [src/lib/prisma.ts]

    A shallow embedding of the dialect-dependent SQL fragment generators,
    the filter compiler, the template binder and the pagination wrappers,
    together with the properties their specification states.

    Conventions of the embedding.
    - A JavaScript string is a [string]: a sequence of 8-bit code units.
    - A JavaScript number that the code uses as a page index or a page
      size is an integer ([Z]); [undefined] is the [None] of an [option].
      The arithmetic of the code is that of doubles, which is the
      arithmetic of [Z] as long as the numbers are safe integers
      ([isSafeInteger]); the properties that spell a product say so.
    - An object used as a dictionary ([data], [params], [filters]) is a
      [gmap string value] of its own properties; reading a key that is
      not among them goes on to [Object.prototype] ([valueOf]).
    - What the module reads from its surroundings (the configured database
      type, the wall clock) is a field of [Env], passed explicitly.
    - A function that may throw or reject returns a [result]. *)

From Stdlib Require Import ZArith Ascii String List Lia.
From stdpp Require Import base option list strings gmap pretty.

Local Open Scope string_scope.

(** ** JavaScript values and coercions

    [VInherited name] is the member [name] of [Object.prototype]: a
    built-in function, or the prototype itself for [__proto__]. *)

Inductive value :=
| VUndefined
| VNull
| VBool (b : bool)
| VNum (n : Z)
| VStr (s : string)
| VDate (t : Z)
| VInherited (name : string).

Inductive error :=
| Error (message : string)
| TypeError (message : string).

Inductive result (A : Type) :=
| Ok (a : A)
| Err (e : error).
Arguments Ok {A} a.
Arguments Err {A} e.

Definition bind {A B} (r : result A) (k : A -> result B) : result B :=
  match r with
  | Ok a => k a
  | Err e => Err e
  end.

Notation "'await' x <- r ; k" := (bind r (fun x => k))
  (at level 10, x name, r at level 100, k at level 200).

(** Truthiness: of a string, of a string that may be [undefined], of a value. *)
Definition truthyString (s : string) : bool :=
  match s with
  | "" => false
  | _ => true
  end.

Definition truthy (s : option string) : bool :=
  match s with
  | Some s' => truthyString s'
  | None => false
  end.

Definition truthyValue (v : value) : bool :=
  match v with
  | VUndefined | VNull => false
  | VBool b => b
  | VNum n => negb (n =? 0)%Z
  | VStr s => truthyString s
  | VDate _ => true
  | VInherited _ => true
  end.

(** A string that may be [undefined], interpolated into a template literal. *)
Definition interpolate (s : option string) : string :=
  default "undefined" s.

(** The property names of [Object.prototype], which every object
    literal inherits. *)
Definition objectPrototype : list string :=
  ["constructor"; "__defineGetter__"; "__defineSetter__"; "hasOwnProperty";
   "__lookupGetter__"; "__lookupSetter__"; "isPrototypeOf";
   "propertyIsEnumerable"; "toString"; "valueOf"; "__proto__";
   "toLocaleString"].

Definition isInherited (name : string) : bool :=
  existsb (String.eqb name) objectPrototype.

(** A member of [Object.prototype] inside a template literal, as V8
    prints it: the prototype is an object, [constructor] is the function
    [Object], every other member a function of its own name. *)
Definition inheritedString (name : string) : string :=
  if String.eqb name "__proto__" then "[object Object]"
  else if String.eqb name "constructor"
       then "function Object() { [native code] }"
       else "function " +:+ name +:+ "() { [native code] }".

(** [obj[name]] on an object literal: an own property, or else what
    [Object.prototype] has under the name, or else [undefined]. *)
Definition valueOf (data : gmap string value) (name : string) : value :=
  match data !! name with
  | Some v => v
  | None => if isInherited name then VInherited name else VUndefined
  end.

(** [obj[name] = v] on an object literal: [__proto__] is the accessor of
    the prototype and no property of the object comes of it. *)
Definition setProperty (name : string) (v : value) (obj : gmap string value)
  : gmap string value :=
  if String.eqb name "__proto__" then obj else <[name := v]> obj.

(** [Number.isSafeInteger]: the integers that doubles count exactly. *)
Definition isSafeInteger (n : Z) : Prop :=
  (Z.abs n <= 9007199254740991)%Z.

(** ** The environment of a call *)

Inductive DatabaseType :=
| POSTGRESQL
| MYSQL
| UnknownDatabase.

Record Env := {
  getDatabaseType : DatabaseType;
  (** the wall clock, milliseconds since the epoch *)
  now : Z;
}.

(** ** Bucket formats

    A table read under [unit] inside a template literal: the format of
    one of the five units, the print of an inherited member for a name of
    [Object.prototype], and [undefined] ([None]) for any other unit. *)

Definition MYSQL_DATE_FORMATS (unit : string) : option string :=
  if String.eqb unit "minute" then Some "%Y-%m-%dT%H:%i:00"
  else if String.eqb unit "hour" then Some "%Y-%m-%d %H:00:00"
  else if String.eqb unit "day" then Some "%Y-%m-%d 00:00:00"
  else if String.eqb unit "month" then Some "%Y-%m-01 00:00:00"
  else if String.eqb unit "year" then Some "%Y-01-01 00:00:00"
  else if isInherited unit then Some (inheritedString unit)
  else None.

Definition POSTGRESQL_DATE_FORMATS (unit : string) : option string :=
  if String.eqb unit "minute" then Some "YYYY-MM-DD HH24:MI:00"
  else if String.eqb unit "hour" then Some "YYYY-MM-DD HH24:00:00"
  else if String.eqb unit "day" then Some "YYYY-MM-DD HH24:00:00"
  else if String.eqb unit "month" then Some "YYYY-MM-01 HH24:00:00"
  else if String.eqb unit "year" then Some "YYYY-01-01 HH24:00:00"
  else if isInherited unit then Some (inheritedString unit)
  else None.

(** ** SQL fragment generators *)

Section Generators.

(** [moment.tz(timezone).format('Z')]: the offset from UTC, as [+hh:mm],
    that the zone [timezone] has at the instant of the call. With no
    date argument [moment.tz] takes the current time, so the instant is
    the clock of the environment. *)
Variable moment_tz_format_Z : Z -> option string -> string.

Definition getAddIntervalQuery (env : Env) (field interval : string)
  : option string :=
  match getDatabaseType env with
  | POSTGRESQL => Some (field +:+ " + interval '" +:+ interval +:+ "'")
  | MYSQL => Some ("DATE_ADD(" +:+ field +:+ ", interval " +:+ interval +:+ ")")
  | UnknownDatabase => None
  end.

Definition getDayDiffQuery (env : Env) (field1 field2 : string)
  : option string :=
  match getDatabaseType env with
  | POSTGRESQL => Some (field1 +:+ "::date - " +:+ field2 +:+ "::date")
  | MYSQL => Some ("DATEDIFF(" +:+ field1 +:+ ", " +:+ field2 +:+ ")")
  | UnknownDatabase => None
  end.

Definition getCastColumnQuery (env : Env) (field type : string)
  : option string :=
  match getDatabaseType env with
  | POSTGRESQL => Some (field +:+ "::" +:+ type)
  | MYSQL => Some field
  | UnknownDatabase => None
  end.

Definition getDateSQL (env : Env) (field unit : string)
    (timezone : option string) : option string :=
  match getDatabaseType env with
  | POSTGRESQL =>
      if truthy timezone then
        Some ("to_char(date_trunc('" +:+ unit +:+ "', " +:+ field
              +:+ " at time zone '" +:+ interpolate timezone +:+ "'), '"
              +:+ interpolate (POSTGRESQL_DATE_FORMATS unit) +:+ "')")
      else
        Some ("to_char(date_trunc('" +:+ unit +:+ "', " +:+ field +:+ "), '"
              +:+ interpolate (POSTGRESQL_DATE_FORMATS unit) +:+ "')")
  | MYSQL =>
      if truthy timezone then
        let tz := moment_tz_format_Z (now env) timezone in
        Some ("date_format(convert_tz(" +:+ field +:+ ",'+00:00','" +:+ tz
              +:+ "'), '" +:+ interpolate (MYSQL_DATE_FORMATS unit) +:+ "')")
      else
        Some ("date_format(" +:+ field +:+ ", '"
              +:+ interpolate (MYSQL_DATE_FORMATS unit) +:+ "')")
  | UnknownDatabase => None
  end.

Definition getDateWeeklySQL (env : Env) (field : string)
    (timezone : option string) : option string :=
  match getDatabaseType env with
  | POSTGRESQL =>
      Some ("concat(extract(dow from (" +:+ field +:+ " at time zone '"
            +:+ interpolate timezone +:+ "')), ':', to_char((" +:+ field
            +:+ " at time zone '" +:+ interpolate timezone +:+ "'), 'HH24'))")
  | MYSQL =>
      let tz := moment_tz_format_Z (now env) timezone in
      Some ("date_format(convert_tz(" +:+ field +:+ ",'+00:00','" +:+ tz
            +:+ "'), '%w:%H')")
  | UnknownDatabase => None
  end.

Definition getTimestampSQL (env : Env) (field : string) : option string :=
  match getDatabaseType env with
  | POSTGRESQL => Some ("floor(extract(epoch from " +:+ field +:+ "))")
  | MYSQL => Some ("UNIX_TIMESTAMP(" +:+ field +:+ ")")
  | UnknownDatabase => None
  end.

Definition getTimestampDiffSQL (env : Env) (field1 field2 : string)
  : option string :=
  match getDatabaseType env with
  | POSTGRESQL =>
      Some ("floor(extract(epoch from (" +:+ field2 +:+ " - " +:+ field1 +:+ ")))")
  | MYSQL =>
      Some ("timestampdiff(second, " +:+ field1 +:+ ", " +:+ field2 +:+ ")")
  | UnknownDatabase => None
  end.

Definition like (env : Env) : string :=
  match getDatabaseType env with
  | POSTGRESQL => "ilike"
  | _ => "like"
  end.

Definition getSearchSQL (env : Env) (column : string) : string :=
  "and " +:+ column +:+ " " +:+ like env +:+ " {{search}}".

End Generators.

(** ** What the two engines make of a bucket format

    [getDateSQL] hands the format to the engine: PostgreSQL evaluates
    [to_char(date_trunc(unit, ts), format)], MySQL evaluates
    [date_format(ts, format)]. The two interpreters below follow the
    engines' manuals for the directives that occur in the two tables;
    every other character of a format is copied to the output. *)

Module Engine.

Record Timestamp := {
  year : nat;
  month : nat;
  day : nat;
  hour : nat;
  minute : nat;
  second : nat;
}.

(** Decimal digits, padded with zeros on the left up to [width]. *)
Fixpoint zeros (k : nat) : string :=
  match k with
  | O => ""
  | S k' => String "0" (zeros k')
  end.

Definition padded (width n : nat) : string :=
  let digits := pretty n in
  zeros (width - String.length digits) +:+ digits.

(** PostgreSQL [date_trunc]; a unit outside the five is an error there. *)
Definition date_trunc (unit : string) (t : Timestamp) : option Timestamp :=
  if String.eqb unit "minute" then
    Some {| year := year t; month := month t; day := day t;
            hour := hour t; minute := minute t; second := 0 |}
  else if String.eqb unit "hour" then
    Some {| year := year t; month := month t; day := day t;
            hour := hour t; minute := 0; second := 0 |}
  else if String.eqb unit "day" then
    Some {| year := year t; month := month t; day := day t;
            hour := 0; minute := 0; second := 0 |}
  else if String.eqb unit "month" then
    Some {| year := year t; month := month t; day := 1;
            hour := 0; minute := 0; second := 0 |}
  else if String.eqb unit "year" then
    Some {| year := year t; month := 1; day := 1;
            hour := 0; minute := 0; second := 0 |}
  else None.

(** PostgreSQL [to_char]: the template patterns YYYY, MM, DD, HH24, MI. *)
Fixpoint to_char (t : Timestamp) (format : string) : string :=
  match format with
  | String "Y" (String "Y" (String "Y" (String "Y" rest))) =>
      padded 4 (year t) +:+ to_char t rest
  | String "M" (String "M" rest) => padded 2 (month t) +:+ to_char t rest
  | String "D" (String "D" rest) => padded 2 (day t) +:+ to_char t rest
  | String "H" (String "H" (String "2" (String "4" rest))) =>
      padded 2 (hour t) +:+ to_char t rest
  | String "M" (String "I" rest) => padded 2 (minute t) +:+ to_char t rest
  | String c rest => String c (to_char t rest)
  | "" => ""
  end.

(** MySQL [date_format]: the specifiers %Y, %m, %d, %H, %i; a percent
    sign before any other character yields that character. *)
Definition specifier (t : Timestamp) (c : ascii) : string :=
  if Ascii.eqb c "Y" then padded 4 (year t)
  else if Ascii.eqb c "m" then padded 2 (month t)
  else if Ascii.eqb c "d" then padded 2 (day t)
  else if Ascii.eqb c "H" then padded 2 (hour t)
  else if Ascii.eqb c "i" then padded 2 (minute t)
  else String c "".

Fixpoint date_format (t : Timestamp) (format : string) : string :=
  match format with
  | String "%" (String c rest) => specifier t c +:+ date_format t rest
  | String c rest => String c (date_format t rest)
  | "" => ""
  end.

(** The text a bucket of [t] is given by each engine, for the format
    that [getDateSQL] embeds in its fragment. *)
Definition bucket_text (db : DatabaseType) (unit : string) (t : Timestamp)
  : option string :=
  match db with
  | POSTGRESQL =>
      match date_trunc unit t, POSTGRESQL_DATE_FORMATS unit with
      | Some t', Some format => Some (to_char t' format)
      | _, _ => None
      end
  | MYSQL =>
      match MYSQL_DATE_FORMATS unit with
      | Some format => Some (date_format t format)
      | None => None
      end
  | UnknownDatabase => None
  end.

End Engine.

(** ** Filter compiler *)

(** Modelled from the spec: [OPERATORS] of [./constants] is not among the
    sources. Section 3 of the specification gives the operator of a filter
    as an enumeration of equals, notEquals, contains and doesNotContain;
    [otherOperator] stands for any further member of the table, which the
    [default] branch of [mapFilter] receives. *)
Inductive Operator :=
| equals
| notEquals
| contains
| doesNotContain
| otherOperator (code : string).

(** An element of the array that [filtersToArray] returns; [filterValue]
    is its field [value]. *)
Record Filter := {
  name : string;
  column : option string;
  operator : Operator;
  filterValue : value;
}.

Record QueryOptions := {
  joinSession : bool;
  columns : gmap string string;
}.

Record Website := {
  domain : string;
  resetAt : option Z;
}.

(** What [parseFilters] returns; [joinSessionQuery] is its field
    [joinSession]. *)
Record ParsedFilters := {
  joinSessionQuery : string;
  filterQuery : string;
  dateQuery : string;
  params : gmap string value;
}.

Definition mapFilter (env : Env) (column : string) (operator : Operator)
    (name : string) (type : string) : string :=
  let value :=
    "{{" +:+ name +:+ (if truthyString type then "::" +:+ type else "") +:+ "}}" in
  match operator with
  | equals => column +:+ " = " +:+ value
  | notEquals => column +:+ " != " +:+ value
  | contains => column +:+ " " +:+ like env +:+ " " +:+ value
  | doesNotContain => column +:+ " not " +:+ like env +:+ " " +:+ value
  | otherOperator _ => ""
  end.

(** [arr.join('\n')] *)
Fixpoint join (lines : list string) : string :=
  match lines with
  | [] => ""
  | [line] => line
  | line :: rest => line +:+ String "010" (join rest)
  end.

Definition referrerExclusion : string :=
  "and (website_event.referrer_domain != {{websiteDomain}} or website_event.referrer_domain is null)".

(** One step of the [reduce] of [getFilterQuery]: the lines pushed for a filter. *)
Definition filterLines (env : Env) (f : Filter) : list string :=
  match column f with
  | Some c =>
      if truthyString c then
        ("and " +:+ mapFilter env c (operator f) (name f) "")
        :: (if String.eqb (name f) "referrer" then [referrerExclusion] else [])
      else []
  | None => []
  end.

(** [`%${value}%`]: the coercion of a value inside a template literal. *)
Definition toString (dateToString : Z -> string) (v : value) : string :=
  match v with
  | VUndefined => "undefined"
  | VNull => "null"
  | VBool true => "true"
  | VBool false => "false"
  | VNum n => pretty n
  | VStr s => s
  | VDate t => dateToString t
  | VInherited name => inheritedString name
  end.

(** A value read as a date; anything that is not a date is no bound. *)
Definition asDate (v : value) : option Z :=
  match v with
  | VDate t => Some t
  | _ => None
  end.

Definition dateValue (d : option Z) : value :=
  match d with
  | Some t => VDate t
  | None => VUndefined
  end.

(** Modelled from the spec: [maxDate] of [./date] is not among the
    sources. Section 4.3 of the specification gives it as the later of the
    two dates, "treating an absent bound as the other's value"; with both
    bounds absent there is no date. *)
Definition maxDate (a b : option Z) : option Z :=
  match a, b with
  | Some x, Some y => Some (Z.max x y)
  | Some x, None => Some x
  | None, Some y => Some y
  | None, None => None
  end.

Section FilterCompiler.

(** [filtersToArray] of [./params]: the filters of a request as an array. *)
Variable filtersToArray : gmap string value -> QueryOptions -> list Filter.
(** [SESSION_COLUMNS] of [./constants]. *)
Variable SESSION_COLUMNS : list string.
(** [Date.prototype.toString], by the time of the date in milliseconds. *)
Variable dateToString : Z -> string.
(** [fetchWebsite] of [./load]: the site of an identifier, if there is one. *)
Variable fetchWebsite : string -> option Website.

Definition noOptions : QueryOptions := {| joinSession := false; columns := ∅ |}.

Definition getFilterQuery (env : Env) (filters : gmap string value)
    (options : QueryOptions) : string :=
  let query :=
    foldl (fun arr f => (arr ++ filterLines env f)%list) []
          (filtersToArray filters options) in
  join query.

Definition getDateQuery (filters : gmap string value) : string :=
  if truthyValue (valueOf filters "startDate") then
    if truthyValue (valueOf filters "endDate") then
      "and website_event.created_at between {{startDate}} and {{endDate}}"
    else "and website_event.created_at >= {{startDate}}"
  else "".

(** The value that [getFilterParams] stores for one filter. *)
Definition filterParam (f : Filter) : value :=
  match operator f with
  | contains | doesNotContain =>
      VStr ("%" +:+ toString dateToString (filterValue f) +:+ "%")
  | _ => filterValue f
  end.

Definition getFilterParams (filters : gmap string value) : gmap string value :=
  foldl (fun obj f => setProperty (name f) (filterParam f) obj) ∅
        (filtersToArray filters noOptions).

Definition parseFilters (env : Env) (websiteId : string)
    (filters : gmap string value) (options : QueryOptions)
  : result ParsedFilters :=
  let joinSessionKey :=
    List.find (fun key => bool_decide (key ∈ SESSION_COLUMNS))
              (map fst (map_to_list filters)) in
  match fetchWebsite websiteId with
  | None => Err (TypeError "Cannot read properties of null (reading 'domain')")
  | Some site =>
      Ok {| joinSessionQuery :=
              if joinSession options || truthy joinSessionKey
              then "inner join session on website_event.session_id = session.session_id"
              else "";
            filterQuery := getFilterQuery env filters options;
            dateQuery := getDateQuery filters;
            params :=
              <["websiteDomain" := VStr (domain site)]>
                (<["startDate" := dateValue (maxDate (asDate (valueOf filters "startDate"))
                                                     (resetAt site))]>
                   (<["websiteId" := VStr websiteId]> (getFilterParams filters))) |}
  end.

End FilterCompiler.

(** ** Template binder *)

(** The character classes [\w] and [\s] of the placeholder pattern, on
    8-bit code units. *)
Definition isWord (c : ascii) : bool :=
  let n := nat_of_ascii c in
  (((48 <=? n) && (n <=? 57)) || ((65 <=? n) && (n <=? 90))
   || ((97 <=? n) && (n <=? 122)) || (n =? 95))%nat.

Definition isSpace (c : ascii) : bool :=
  let n := nat_of_ascii c in
  (((9 <=? n) && (n <=? 13)) || (n =? 32) || (n =? 160))%nat.

(** A greedy run [p*] at the head of a string, and what follows it. *)
Fixpoint takeWhile (p : ascii -> bool) (s : string) : string :=
  match s with
  | String c rest => if p c then String c (takeWhile p rest) else ""
  | "" => ""
  end.

Fixpoint dropWhile (p : ascii -> bool) (s : string) : string :=
  match s with
  | String c rest => if p c then dropWhile p rest else s
  | "" => ""
  end.

(** [(::\w+)]: the type hint with its two colons, and what follows it. *)
Definition typeHint (s : string) : option (string * string) :=
  match s with
  | String ":" (String ":" s') =>
      let type := takeWhile isWord s' in
      if truthyString type then Some ("::" +:+ type, dropWhile isWord s') else None
  | _ => None
  end.

(** [\s*}}]: what follows the closing braces. *)
Definition closing (s : string) : option string :=
  match dropWhile isSpace s with
  | String "}" (String "}" rest) => Some rest
  | _ => None
  end.

(** One match of [/\{\{\s*(\w+)(::\w+)?\s*}}/] at the head of a string:
    the two captures and the text after the match. The optional group is
    tried first and given up when the rest of the pattern fails after it. *)
Definition matchPlaceholder (s : string)
  : option (string * option string * string) :=
  match s with
  | String "{" (String "{" s1) =>
      let s2 := dropWhile isSpace s1 in
      let name := takeWhile isWord s2 in
      let s3 := dropWhile isWord s2 in
      if truthyString name then
        let without := (fun rest => (name, None, rest)) <$> closing s3 in
        match typeHint s3 with
        | Some (type, s4) =>
            match closing s4 with
            | Some rest => Some (name, Some type, rest)
            | None => without
            end
        | None => without
        end
      else None
  | _ => None
  end.

(** The replacement callback: pushes the value and yields the marker. *)
Definition marker (db : DatabaseType) (position : nat) (type : option string)
  : string :=
  match db with
  | MYSQL => "?"
  | _ => "$" +:+ pretty position +:+ default "" type
  end.

(** [sql.replaceAll(pattern, callback)], threading the array [params] that
    the callback pushes to. A step consumes a match or one character, so
    the length of the template bounds the number of steps. *)
Fixpoint replaceAll (steps : nat) (db : DatabaseType) (data : gmap string value)
    (sql : string) (params : list value) : string * list value :=
  match steps with
  | O => (sql, params)
  | S steps' =>
      match matchPlaceholder sql with
      | Some (name, type, rest) =>
          let params' := (params ++ [valueOf data name])%list in
          let '(query, final) := replaceAll steps' db data rest params' in
          (marker db (length params') type +:+ query, final)
      | None =>
          match sql with
          | String c rest =>
              let '(query, final) := replaceAll steps' db data rest params in
              (String c query, final)
          | "" => ("", params)
          end
      end
  end.

Definition bindTemplate (db : DatabaseType) (data : gmap string value)
    (sql : string) : string * list value :=
  replaceAll (String.length sql) db data sql [].

Section Executor.

Variable Row : Type.
(** [prisma.rawQuery] of the client package: runs the statement. *)
Variable prisma_rawQuery : string -> list value -> result (list Row).

(** The logging under [LOG_QUERY] has no part in the result. *)
Definition rawQuery (env : Env) (sql : string) (data : gmap string value)
  : result (list Row) :=
  match getDatabaseType env with
  | UnknownDatabase => Err (Error "Unknown database.")
  | db =>
      let '(query, params) := bindTemplate db data sql in
      prisma_rawQuery query params
  end.

End Executor.

(** ** Pagination *)

Module PageParams.
Record t := {
  page : option Z;
  pageSize : option Z;
  orderBy : option string;
  sortDescending : bool;
}.
(** [{}] *)
Definition empty : t :=
  {| page := None; pageSize := None; orderBy := None; sortDescending := false |}.
End PageParams.

Module FindManyArgs.
Record t (Where : Type) := {
  where_ : option Where;
  take : option Z;
  skip : option Z;
  orderBy : option (list (string * string));
}.
Arguments where_ {Where}.
Arguments take {Where}.
Arguments skip {Where}.
Arguments orderBy {Where}.
End FindManyArgs.

Module PagedResult.
Record t (Row : Type) := {
  data : list Row;
  count : value;
  page : Z;
  pageSize : Z;
  orderBy : option string;
}.
Arguments data {Row}.
Arguments count {Row}.
Arguments page {Row}.
Arguments pageSize {Row}.
Arguments orderBy {Row}.
End PagedResult.

Inductive number :=
| NaN
| Num (n : Z).

(** Unary plus on a number that may be [undefined]. *)
Definition toNumber (n : option Z) : number :=
  match n with
  | Some n' => Num n'
  | None => NaN
  end.

(** [n || d]: [NaN] and [0] are the falsy numbers. *)
Definition orElse (n : number) (d : Z) : Z :=
  match n with
  | NaN => d
  | Num n' => if (n' =? 0)%Z then d else n'
  end.

Definition direction (sortDescending : bool) : string :=
  if sortDescending then "desc" else "asc".

Section Pagination.

(** [DEFAULT_PAGE_SIZE] of [./constants]. *)
Variable DEFAULT_PAGE_SIZE : Z.

Variable Row Where : Type.
(** [prisma.client[model].findMany] and [prisma.client[model].count]. *)
Variable client_findMany : string -> FindManyArgs.t Where -> result (list Row).
Variable client_count : string -> option Where -> result Z.
Variable prisma_rawQuery : string -> list value -> result (list Row).
(** The column [num] of a row. *)
Variable num : Row -> value.

(** [const size = +pageSize || DEFAULT_PAGE_SIZE] *)
Definition size (pageParams : PageParams.t) : Z :=
  orElse (toNumber (PageParams.pageSize pageParams)) DEFAULT_PAGE_SIZE.

(** The argument of [findMany]: the criteria, overridden by the spread
    of the pagination and ordering keys. *)
Definition findManyArgs (criteria : FindManyArgs.t Where)
    (pageParams : PageParams.t) : FindManyArgs.t Where :=
  let page := default 1%Z (PageParams.page pageParams) in
  let size := size pageParams in
  {| FindManyArgs.where_ := FindManyArgs.where_ criteria;
     FindManyArgs.take :=
       if (0 <? size)%Z then Some size else FindManyArgs.take criteria;
     FindManyArgs.skip :=
       if (0 <? size)%Z then Some (size * (page - 1))%Z
       else FindManyArgs.skip criteria;
     FindManyArgs.orderBy :=
       match PageParams.orderBy pageParams with
       | Some key =>
           if truthyString key
           then Some [(key, direction (PageParams.sortDescending pageParams))]
           else FindManyArgs.orderBy criteria
       | None => FindManyArgs.orderBy criteria
       end |}.

Definition pagedQuery (model : string) (criteria : FindManyArgs.t Where)
    (pageParams : option PageParams.t) : result (PagedResult.t Row) :=
  let pageParams := default PageParams.empty pageParams in
  await data <- client_findMany model (findManyArgs criteria pageParams);
  await count <- client_count model (FindManyArgs.where_ criteria);
  Ok {| PagedResult.data := data;
        PagedResult.count := VNum count;
        PagedResult.page := default 1%Z (PageParams.page pageParams);
        PagedResult.pageSize := size pageParams;
        PagedResult.orderBy := PageParams.orderBy pageParams |}.

(** The two elements of the array of statements; a falsy element is
    [None] and is filtered out. *)
Definition orderStatement (pageParams : PageParams.t) : option string :=
  match PageParams.orderBy pageParams with
  | Some key =>
      if truthyString key
      then Some ("order by " +:+ key +:+ " "
                 +:+ direction (PageParams.sortDescending pageParams))
      else None
  | None => None
  end.

Definition limitStatement (pageParams : PageParams.t) : option string :=
  let page := default 1%Z (PageParams.page pageParams) in
  let size := size pageParams in
  let offset := (size * (page - 1))%Z in
  if (0 <? size)%Z
  then Some ("limit " +:+ pretty size +:+ " offset " +:+ pretty offset)
  else None.

(** The suffix that [pagedRawQuery] appends to the query. *)
Definition statements (pageParams : PageParams.t) : string :=
  join (omap id [orderStatement pageParams; limitStatement pageParams]).

Definition pagedRawQuery (env : Env) (query : string)
    (queryParams : gmap string value) (pageParams : option PageParams.t)
  : result (PagedResult.t Row) :=
  let pageParams := default PageParams.empty pageParams in
  await res <- rawQuery Row prisma_rawQuery env
                 ("select count(*) as num from (" +:+ query +:+ ") t") queryParams;
  await count <- match res with
                 | row :: _ => Ok (num row)
                 | [] => Err (TypeError "Cannot read properties of undefined (reading 'num')")
                 end;
  await data <- rawQuery Row prisma_rawQuery env
                  (query +:+ statements pageParams) queryParams;
  Ok {| PagedResult.data := data;
        PagedResult.count := count;
        PagedResult.page := default 1%Z (PageParams.page pageParams);
        PagedResult.pageSize := size pageParams;
        PagedResult.orderBy := PageParams.orderBy pageParams |}.

End Pagination.

(** ** Search predicate *)

(** The values that a search filter and the predicate built from it are
    made of: strings, objects with their entries in order, arrays, [null]
    or [undefined], and everything else (numbers, booleans). *)
Inductive json :=
| JString (s : string)
| JObject (entries : list (string * json))
| JArray (items : list json)
| JNull
| JOther.

(** [obj[key] = v] on the entries of an object: an existing key keeps its
    place and takes the value, a new key goes to the end. *)
Fixpoint setEntry (key : string) (v : json) (entries : list (string * json))
  : list (string * json) :=
  match entries with
  | [] => [(key, v)]
  | (k, w) :: rest =>
      if String.eqb k key then (k, v) :: rest
      else (k, w) :: setEntry key v rest
  end.

(** [{ ...entries, ...more }] *)
Definition spread (entries more : list (string * json))
  : list (string * json) :=
  foldl (fun acc entry => setEntry (fst entry) (snd entry) acc) entries more.

Definition getQueryMode (env : Env) : list (string * json) :=
  match getDatabaseType env with
  | POSTGRESQL => [("mode", JString "insensitive")]
  | _ => []
  end.

(** [{ [value]: query, ...mode }] *)
Definition searchMatch (mode : list (string * json)) (query value : string)
  : json :=
  JObject (spread [(value, JString query)] mode).

Definition notIterable : error := TypeError "undefined is not iterable".

Definition notAnObject : error :=
  TypeError "Cannot convert undefined or null to object".

(** [parseFilter]: the first entry of the filter decides; the entries of
    an array are its items under their indices, those of a string its
    characters, and a value without entries cannot be destructured. *)
Fixpoint parseFilter (mode : list (string * json)) (query : string)
    (filter : json) : result json :=
  match filter with
  | JObject ((key, value) :: _) =>
      match value with
      | JString operation =>
          Ok (JObject [(key, searchMatch mode query operation)])
      | _ =>
          await inner <- parseFilter mode query value;
          Ok (JObject [(key, inner)])
      end
  | JArray (value :: _) =>
      match value with
      | JString operation =>
          Ok (JObject [("0", searchMatch mode query operation)])
      | _ =>
          await inner <- parseFilter mode query value;
          Ok (JObject [("0", inner)])
      end
  | JString (String c _) =>
      Ok (JObject [("0", searchMatch mode query (String c ""))])
  | JNull => Err notAnObject
  | _ => Err notIterable
  end.

(** [filters.map(f)] for an [f] that may throw. *)
Fixpoint mapResult {A B} (f : A -> result B) (l : list A) : result (list B) :=
  match l with
  | [] => Ok []
  | x :: rest =>
      await y <- f x;
      await ys <- mapResult f rest;
      Ok (y :: ys)
  end.

Definition getSearchParameters (env : Env) (query : string)
    (filters : list json) : result (option json) :=
  if truthyString query then
    let mode := getQueryMode env in
    await params <- mapResult (parseFilter mode query) filters;
    Ok (Some (JObject [("AND", JObject [("OR", JArray params)])]))
  else Ok None.

(** [{ k1: { k2: ... inner } }]: an object of one entry for each key. *)
Definition nest (keys : list string) (inner : json) : json :=
  foldr (fun key acc => JObject [(key, acc)]) inner keys.

(** A search field: the keys that lead to it and its operation. *)
Definition searchField (field : list string * string) : json :=
  nest (fst field) (JString (snd field)).

(** ** The binding, as the specification words it

    A template is text with placeholders: two opening braces, optional
    blanks, a name of word characters, optionally two colons and a type
    of word characters, optional blanks, two closing braces. Scanning
    from the left, a placeholder that starts at the current position is
    one hole, and a character at which no placeholder starts stands for
    itself. Rendering numbers the holes from one. *)

Fixpoint every (p : ascii -> bool) (s : string) : bool :=
  match s with
  | String c rest => p c && every p rest
  | "" => true
  end.

Inductive Placeholder : string -> string -> option string -> Prop :=
| PlainPlaceholder (blanks name blanks' : string) :
    every isSpace blanks = true ->
    every isWord name = true -> name <> "" ->
    every isSpace blanks' = true ->
    Placeholder ("{{" +:+ blanks +:+ name +:+ blanks' +:+ "}}") name None
| TypedPlaceholder (blanks name type blanks' : string) :
    every isSpace blanks = true ->
    every isWord name = true -> name <> "" ->
    every isWord type = true -> type <> "" ->
    every isSpace blanks' = true ->
    Placeholder ("{{" +:+ blanks +:+ name +:+ "::" +:+ type +:+ blanks' +:+ "}}")
                name (Some ("::" +:+ type)).

Inductive segment :=
| Literal (c : ascii)
| Hole (name : string) (type : option string).

Inductive Scanned : string -> list segment -> Prop :=
| ScannedEnd : Scanned "" []
| ScannedHole text name type rest segments :
    Placeholder text name type ->
    Scanned rest segments ->
    Scanned (text +:+ rest) (Hole name type :: segments)
| ScannedLiteral c rest segments :
    (forall text name type rest',
        Placeholder text name type -> String c rest <> text +:+ rest') ->
    Scanned rest segments ->
    Scanned (String c rest) (Literal c :: segments).

(** The marker of the hole at [position]: a question mark for the dialect
    with ordinal markers, a dollar sign, the position and the type hint
    for the dialect with typed markers. *)
Definition positional (db : DatabaseType) (position : nat)
    (type : option string) : string :=
  match db, type with
  | MYSQL, _ => "?"
  | _, Some hint => "$" +:+ pretty position +:+ hint
  | _, None => "$" +:+ pretty position
  end.

Fixpoint render (db : DatabaseType) (position : nat) (segments : list segment)
  : string :=
  match segments with
  | [] => ""
  | Literal c :: rest => String c (render db position rest)
  | Hole _ type :: rest =>
      positional db position type +:+ render db (S position) rest
  end.

Fixpoint holes (segments : list segment) : list (string * option string) :=
  match segments with
  | [] => []
  | Literal _ :: rest => holes rest
  | Hole name type :: rest => (name, type) :: holes rest
  end.

Definition boundValues (data : gmap string value) (segments : list segment)
  : list value :=
  map (fun hole => valueOf data (fst hole)) (holes segments).

(** ** Templates put together from text and placeholders

    A template as the generators write it: pieces of text and
    placeholders of a name, with or without a type. *)

Inductive piece :=
| Text (s : string)
| Param (name : string) (type : option string).

Definition placeholderText (name : string) (type : option string) : string :=
  match type with
  | Some hint => "{{" +:+ name +:+ "::" +:+ hint +:+ "}}"
  | None => "{{" +:+ name +:+ "}}"
  end.

Fixpoint surface (pieces : list piece) : string :=
  match pieces with
  | [] => ""
  | Text s :: rest => s +:+ surface rest
  | Param name type :: rest => placeholderText name type +:+ surface rest
  end.

(** The statement of a template of pieces, its placeholders numbered
    from [position]. *)
Fixpoint statement (db : DatabaseType) (position : nat) (pieces : list piece)
  : string :=
  match pieces with
  | [] => ""
  | Text s :: rest => s +:+ statement db position rest
  | Param _ type :: rest =>
      positional db position ((fun hint => "::" +:+ hint) <$> type)
      +:+ statement db (S position) rest
  end.

Fixpoint names (pieces : list piece) : list string :=
  match pieces with
  | [] => []
  | Text _ :: rest => names rest
  | Param name _ :: rest => name :: names rest
  end.

(** The scan of a template of pieces. *)
Fixpoint literals (s : string) : list segment :=
  match s with
  | String c rest => Literal c :: literals rest
  | "" => []
  end.

Fixpoint segmentsOf (pieces : list piece) : list segment :=
  match pieces with
  | [] => []
  | Text s :: rest => (literals s ++ segmentsOf rest)%list
  | Param name type :: rest =>
      Hole name ((fun hint => "::" +:+ hint) <$> type) :: segmentsOf rest
  end.

Definition isOpening (c : ascii) : bool := Ascii.eqb c "{".

(** The type of a hole is none or two colons and word characters. *)
Definition hintOk (type : option string) : Prop :=
  match type with
  | Some hint => exists word, hint = "::" +:+ word /\ every isWord word = true
  | None => True
  end.

(** The characters that a placeholder is written with. *)
Definition isPlaceholderChar (c : ascii) : bool :=
  isWord c || isSpace c || Ascii.eqb c "{" || Ascii.eqb c "}"
  || Ascii.eqb c ":".

(** A non-empty run of word characters. *)
Definition isIdentifier (s : string) : bool :=
  every isWord s && truthyString s.

(** Text without an opening brace; names and types that the pattern of
    the binder accepts. *)
Definition wellFormed (p : piece) : bool :=
  match p with
  | Text s => every (fun c => negb (isOpening c)) s
  | Param name None => isIdentifier name
  | Param name (Some hint) => isIdentifier name && isIdentifier hint
  end.

(** The pieces of the lines of the filter query. *)
Definition mapFilterPieces (env : Env) (column : string) (operator : Operator)
    (name : string) : list piece :=
  match operator with
  | equals => [Text (column +:+ " = "); Param name None]
  | notEquals => [Text (column +:+ " != "); Param name None]
  | contains => [Text (column +:+ " " +:+ like env +:+ " "); Param name None]
  | doesNotContain =>
      [Text (column +:+ " not " +:+ like env +:+ " "); Param name None]
  | otherOperator _ => []
  end.

Definition referrerExclusionPieces : list piece :=
  [Text "and (website_event.referrer_domain != "; Param "websiteDomain" None;
   Text " or website_event.referrer_domain is null)"].

Definition filterPieces (env : Env) (f : Filter) : list (list piece) :=
  match column f with
  | Some c =>
      if truthyString c then
        (Text "and " :: mapFilterPieces env c (operator f) (name f))
        :: (if String.eqb (name f) "referrer"
            then [referrerExclusionPieces] else [])
      else []
  | None => []
  end.

(** A filter whose line the binder can take: a column without an opening
    brace and a name of word characters, when it has a column at all. *)
Definition bindable (f : Filter) : bool :=
  match column f with
  | Some c =>
      if truthyString c
      then every (fun c => negb (isOpening c)) c && isIdentifier (name f)
      else true
  | None => true
  end.

(** The names of the placeholders in the lines of a filter. *)
Definition filterNames (f : Filter) : list string :=
  match column f with
  | Some c =>
      if truthyString c then
        (match operator f with
         | otherOperator _ => []
         | _ => [name f]
         end
         ++ (if String.eqb (name f) "referrer" then ["websiteDomain"] else []))%list
      else []
  | None => []
  end.

(** [lines.join('\n')] on lines given as pieces. *)
Fixpoint joinPieces (lines : list (list piece)) : list piece :=
  match lines with
  | [] => []
  | [line] => line
  | line :: rest => (line ++ Text (String "010" "") :: joinPieces rest)%list
  end.

(** ** A zone for the examples

    The offsets of Europe/London around the start of summer time in 2023
    (26 March, 01:00 UTC), as [moment.tz(zone).format('Z')] reports them;
    every other zone is taken to be at UTC. *)
Definition exampleOffset (now : Z) (timezone : option string) : string :=
  match timezone with
  | Some zone =>
      if String.eqb zone "Europe/London" then
        if (now <? 1679792400000)%Z then "+00:00" else "+01:00"
      else "+00:00"
  | None => "+00:00"
  end.

(** ** Collaborators and inputs for the examples *)

(** A client over an empty table. *)
Definition emptyFindMany (model : string) (args : FindManyArgs.t unit)
  : result (list unit) := Ok [].

Definition emptyCount (model : string) (where_ : option unit) : result Z :=
  Ok 0%Z.

(** A raw executor that answers every statement with one row. *)
Definition oneRow (query : string) (params : list value) : result (list unit) :=
  Ok [tt].

Definition zeroNum (row : unit) : value := VNum 0.

(** A client that answers [findMany] with its argument, as one row, and
    one that has no rows for an executor of statements. *)
Definition echoFindMany (model : string) (args : FindManyArgs.t unit)
  : result (list (FindManyArgs.t unit)) := Ok [args].

Definition noRows (model : string) (args : FindManyArgs.t unit)
  : result (list (string * list value)) := Ok [].

Definition sevenNum (row : string * list value) : value := VNum 7.

(** An executor that answers a statement with the statement and its
    parameters, as one row. *)
Definition echo (query : string) (params : list value)
  : result (list (string * list value)) := Ok [(query, params)].

Definition noCriteria : FindManyArgs.t unit :=
  {| FindManyArgs.where_ := None; FindManyArgs.take := None;
     FindManyArgs.skip := None; FindManyArgs.orderBy := None |}.

(** [{ pageSize: 0 }] *)
Definition zeroPageSize : PageParams.t :=
  {| PageParams.page := None; PageParams.pageSize := Some 0%Z;
     PageParams.orderBy := None; PageParams.sortDescending := false |}.

(** [filtersToArray] of a request with the filters [fs]. *)
Definition theFilters (fs : list Filter) (filters : gmap string value)
    (options : QueryOptions) : list Filter := fs.

Definition referrerFilter : Filter :=
  {| name := "referrer"; column := Some "website_event.referrer_domain";
     operator := contains; filterValue := VStr "x" |}.

(** A filter whose operator is [OPERATORS.greaterThan]. *)
Definition greaterThanFilter : Filter :=
  {| name := "views"; column := Some "views";
     operator := otherOperator "gt"; filterValue := VNum 3 |}.

(** Filters that are named like the keys that [parseFilters] computes. *)
Definition reservedFilters : list Filter :=
  [ {| name := "websiteId"; column := None; operator := equals;
       filterValue := VStr "forged" |};
    {| name := "startDate"; column := None; operator := equals;
       filterValue := VDate 5 |};
    {| name := "websiteDomain"; column := None; operator := contains;
       filterValue := VStr "forged.example" |};
    {| name := "url"; column := Some "url_path"; operator := equals;
       filterValue := VStr "/" |} ].



Definition exampleSite : Website :=
  {| domain := "example.com"; resetAt := Some 100%Z |}.

Definition fetchExample (websiteId : string) : option Website :=
  if String.eqb websiteId "site-1" then Some exampleSite else None.

Definition isoString (t : Z) : string := pretty t.

Definition exampleTemplate : string :=
  "select * from t where id = {{id}} and name = {{name::text}}".

(** [{ id: 5, name: 'a' }] *)
Definition exampleData : gmap string value :=
  <["id" := VNum 5]> (<["name" := VStr "a"]> ∅).

Definition postgres : Env := {| getDatabaseType := POSTGRESQL; now := 0 |}.

Definition mysql : Env := {| getDatabaseType := MYSQL; now := 0 |}.

Definition beforeSummerTime : Env :=
  {| getDatabaseType := MYSQL; now := 1679792399000 |}.

Definition afterSummerTime : Env :=
  {| getDatabaseType := MYSQL; now := 1679792400000 |}.

Definition exampleTimestamp : Engine.Timestamp :=
  {| Engine.year := 2023; Engine.month := 5; Engine.day := 17;
     Engine.hour := 13; Engine.minute := 45; Engine.second := 27 |}.

(** * Properties *)

(** ** Strings *)

Local Arguments String.append !s1 s2 : simpl nomatch.

Lemma append_assoc (a b c : string) : (a +:+ b) +:+ c = a +:+ (b +:+ c).
Proof. induction a as [|x a IH]; simpl; [reflexivity | congruence]. Qed.

Lemma append_empty_r (a : string) : a +:+ "" = a.
Proof. induction a as [|x a IH]; simpl; [reflexivity | congruence]. Qed.

Lemma length_append (a b : string) :
  String.length (a +:+ b) = String.length a + String.length b.
Proof. induction a as [|x a IH]; simpl; [reflexivity | congruence]. Qed.

Lemma append_inv_head (a b c : string) : a +:+ b = a +:+ c -> b = c.
Proof.
  induction a as [|x a IH]; simpl; intros H; [assumption|].
  injection H as H. now apply IH.
Qed.

(** ** Bucket formats on the two engines *)

Section BucketFormats.
Import Engine.

Local Opaque padded.

Lemma bucket_text_hour t :
  bucket_text POSTGRESQL "hour" t = bucket_text MYSQL "hour" t.
Proof. reflexivity. Qed.

Lemma bucket_text_day t :
  bucket_text POSTGRESQL "day" t = bucket_text MYSQL "day" t.
Proof. reflexivity. Qed.

Lemma bucket_text_month t :
  bucket_text POSTGRESQL "month" t = bucket_text MYSQL "month" t.
Proof. reflexivity. Qed.

Lemma bucket_text_year t :
  bucket_text POSTGRESQL "year" t = bucket_text MYSQL "year" t.
Proof. reflexivity. Qed.

(** The format reaches the engine inside the fragment. *)
Example getDateSQL_minute_postgresql :
  getDateSQL exampleOffset postgres "created_at" "minute" None
  = Some "to_char(date_trunc('minute', created_at), 'YYYY-MM-DD HH24:MI:00')".
Proof. reflexivity. Qed.

Example getDateSQL_minute_mysql :
  getDateSQL exampleOffset mysql "created_at" "minute" None
  = Some "date_format(created_at, '%Y-%m-%dT%H:%i:00')".
Proof. reflexivity. Qed.

(** Two timestamps of one bucket have one text, on either engine. *)
Lemma bucket_text_same_bucket db unit t t' :
  unit ∈ ["minute"; "hour"; "day"; "month"; "year"] ->
  date_trunc unit t = date_trunc unit t' ->
  bucket_text db unit t = bucket_text db unit t'.
Proof.
  intros Hunit Htrunc.
  destruct db; [| |reflexivity].
  - unfold bucket_text. now rewrite Htrunc.
  - repeat (apply elem_of_cons in Hunit as [->|Hunit]);
      [..|now apply elem_of_nil in Hunit];
      unfold bucket_text; simpl in *; unfold specifier; simpl;
      injection Htrunc; intros; congruence.
Qed.

(** C2: for the unit [minute] the two engines give different texts:
    PostgreSQL separates date and time by a blank, MySQL by the letter
    T, for every timestamp; the texts of 2023-05-17 13:45:27 are shown. *)
Theorem bucket_text_minute_differs :
  bucket_text POSTGRESQL "minute" exampleTimestamp = Some "2023-05-17 13:45:00"
  /\ bucket_text MYSQL "minute" exampleTimestamp = Some "2023-05-17T13:45:00"
  /\ forall t, bucket_text POSTGRESQL "minute" t <> bucket_text MYSQL "minute" t.
Proof.
  split; [reflexivity|]. split; [reflexivity|].
  intros t H. unfold bucket_text in H. simpl in H.
  unfold specifier in H. simpl in H. injection H as H.
  repeat match type of H with
         | _ +:+ _ = _ +:+ _ => apply append_inv_head in H
         | String _ _ = String _ _ => injection H as H
         end.
  discriminate.
Qed.

End BucketFormats.

(** ** Fragment generators and the environment *)

Section Repeatable.

Variable moment_tz_format_Z : Z -> option string -> string.

(** Six of the generators read the database type and nothing else. *)
Lemma plain_generators_repeatable env env' :
  getDatabaseType env = getDatabaseType env' ->
  (forall field interval,
      getAddIntervalQuery env field interval
      = getAddIntervalQuery env' field interval)
  /\ (forall field1 field2,
         getDayDiffQuery env field1 field2 = getDayDiffQuery env' field1 field2)
  /\ (forall field type,
         getCastColumnQuery env field type = getCastColumnQuery env' field type)
  /\ (forall field, getTimestampSQL env field = getTimestampSQL env' field)
  /\ (forall field1 field2,
         getTimestampDiffSQL env field1 field2
         = getTimestampDiffSQL env' field1 field2)
  /\ (forall column, getSearchSQL env column = getSearchSQL env' column).
Proof.
  intros Hdb.
  unfold getAddIntervalQuery, getDayDiffQuery, getCastColumnQuery,
    getTimestampSQL, getTimestampDiffSQL, getSearchSQL, like.
  rewrite Hdb. repeat split; reflexivity.
Qed.

(** The two date generators read the clock too, through the offset of
    the zone, on MySQL only. *)
Lemma getDateSQL_repeatable env env' field unit timezone :
  getDatabaseType env = getDatabaseType env' ->
  (getDatabaseType env = MYSQL -> truthy timezone = true ->
   moment_tz_format_Z (now env) timezone
   = moment_tz_format_Z (now env') timezone) ->
  getDateSQL moment_tz_format_Z env field unit timezone
  = getDateSQL moment_tz_format_Z env' field unit timezone.
Proof.
  intros Hdb Hoffset. unfold getDateSQL. rewrite <- Hdb.
  destruct (getDatabaseType env); try reflexivity.
  destruct (truthy timezone); [|reflexivity].
  now rewrite Hoffset.
Qed.

Lemma getDateWeeklySQL_repeatable env env' field timezone :
  getDatabaseType env = getDatabaseType env' ->
  (getDatabaseType env = MYSQL ->
   moment_tz_format_Z (now env) timezone
   = moment_tz_format_Z (now env') timezone) ->
  getDateWeeklySQL moment_tz_format_Z env field timezone
  = getDateWeeklySQL moment_tz_format_Z env' field timezone.
Proof.
  intros Hdb Hoffset. unfold getDateWeeklySQL. rewrite <- Hdb.
  destruct (getDatabaseType env); try reflexivity.
  now rewrite Hoffset.
Qed.

(** C8, as amended: two calls of a generator with the same inputs under
    the same database type return the same text, for the two date
    generators on MySQL provided the zone has the same offset from UTC
    at both calls (for [getDateSQL]: when a time zone is given). *)
Theorem generators_repeatable env env' :
  getDatabaseType env = getDatabaseType env' ->
  (forall field interval,
      getAddIntervalQuery env field interval
      = getAddIntervalQuery env' field interval)
  /\ (forall field1 field2,
         getDayDiffQuery env field1 field2 = getDayDiffQuery env' field1 field2)
  /\ (forall field type,
         getCastColumnQuery env field type = getCastColumnQuery env' field type)
  /\ (forall field, getTimestampSQL env field = getTimestampSQL env' field)
  /\ (forall field1 field2,
         getTimestampDiffSQL env field1 field2
         = getTimestampDiffSQL env' field1 field2)
  /\ (forall column, getSearchSQL env column = getSearchSQL env' column)
  /\ (forall field unit timezone,
         (getDatabaseType env = MYSQL -> truthy timezone = true ->
          moment_tz_format_Z (now env) timezone
          = moment_tz_format_Z (now env') timezone) ->
         getDateSQL moment_tz_format_Z env field unit timezone
         = getDateSQL moment_tz_format_Z env' field unit timezone)
  /\ (forall field timezone,
         (getDatabaseType env = MYSQL ->
          moment_tz_format_Z (now env) timezone
          = moment_tz_format_Z (now env') timezone) ->
         getDateWeeklySQL moment_tz_format_Z env field timezone
         = getDateWeeklySQL moment_tz_format_Z env' field timezone).
Proof.
  intros Hdb.
  destruct (plain_generators_repeatable env env' Hdb)
    as (H1 & H2 & H3 & H4 & H5 & H6).
  repeat split; try assumption.
  - intros. now apply getDateSQL_repeatable.
  - intros. now apply getDateWeeklySQL_repeatable.
Qed.

End Repeatable.

(** Two calls in winter, one second apart, agree on every generator. *)
Lemma generators_repeatable_witness :
  getDatabaseType beforeSummerTime
  = getDatabaseType {| getDatabaseType := MYSQL; now := 1679792398000 |}
  /\ getDateSQL exampleOffset beforeSummerTime "created_at" "day"
       (Some "Europe/London")
     = getDateSQL exampleOffset
         {| getDatabaseType := MYSQL; now := 1679792398000 |}
         "created_at" "day" (Some "Europe/London").
Proof.
  split; [reflexivity|].
  apply (generators_repeatable exampleOffset beforeSummerTime
           {| getDatabaseType := MYSQL; now := 1679792398000 |});
    reflexivity.
Defined.

(** C8, as stated, fails: on MySQL the bucket of a day in the zone
    Europe/London is a different text one second before and at the start
    of summer time, the database type being the same. *)
Lemma getDateSQL_depends_on_clock :
  getDatabaseType beforeSummerTime = getDatabaseType afterSummerTime
  /\ getDateSQL exampleOffset beforeSummerTime "created_at" "day"
       (Some "Europe/London")
     = Some "date_format(convert_tz(created_at,'+00:00','+00:00'), '%Y-%m-%d 00:00:00')"
  /\ getDateSQL exampleOffset afterSummerTime "created_at" "day"
       (Some "Europe/London")
     = Some "date_format(convert_tz(created_at,'+00:00','+01:00'), '%Y-%m-%d 00:00:00')"
  /\ getDateSQL exampleOffset beforeSummerTime "created_at" "day"
       (Some "Europe/London")
     <> getDateSQL exampleOffset afterSummerTime "created_at" "day"
          (Some "Europe/London").
Proof. repeat split; try reflexivity. discriminate. Qed.

(** ** Pagination *)

Section Paging.

Variable DEFAULT_PAGE_SIZE : Z.
Variable Row Where : Type.
Variable client_findMany : string -> FindManyArgs.t Where -> result (list Row).
Variable client_count : string -> option Where -> result Z.
Variable prisma_rawQuery : string -> list value -> result (list Row).
Variable num : Row -> value.

Local Abbreviation size' := (size DEFAULT_PAGE_SIZE).
Local Abbreviation findManyArgs' := (findManyArgs DEFAULT_PAGE_SIZE Where).
Local Abbreviation limitStatement' := (limitStatement DEFAULT_PAGE_SIZE).
Local Abbreviation statements' := (statements DEFAULT_PAGE_SIZE).
Local Abbreviation pagedQuery' :=
  (pagedQuery DEFAULT_PAGE_SIZE Row Where client_findMany client_count).
Local Abbreviation pagedRawQuery' :=
  (pagedRawQuery DEFAULT_PAGE_SIZE Row prisma_rawQuery num).
Local Abbreviation rawQuery' := (rawQuery Row prisma_rawQuery).

Lemma size_fallback pageParams :
  PageParams.pageSize pageParams = None
  \/ PageParams.pageSize pageParams = Some 0%Z ->
  size' pageParams = DEFAULT_PAGE_SIZE.
Proof. unfold size. intros [-> | ->]; reflexivity. Qed.

Lemma size_given pageParams n :
  PageParams.pageSize pageParams = Some n -> n <> 0%Z ->
  size' pageParams = n.
Proof.
  unfold size. intros -> Hn. simpl.
  destruct (Z.eqb_spec n 0); [contradiction | reflexivity].
Qed.

(** The envelope of a structured query whose two reads succeed. *)
Lemma pagedQuery_ok model criteria pageParams data count :
  let given := default PageParams.empty pageParams in
  client_findMany model (findManyArgs' criteria given) = Ok data ->
  client_count model (FindManyArgs.where_ criteria) = Ok count ->
  pagedQuery' model criteria pageParams
  = Ok {| PagedResult.data := data;
          PagedResult.count := VNum count;
          PagedResult.page := default 1%Z (PageParams.page given);
          PagedResult.pageSize := size' given;
          PagedResult.orderBy := PageParams.orderBy given |}.
Proof.
  intros given Hdata Hcount. unfold pagedQuery.
  fold given. rewrite Hdata. simpl. rewrite Hcount. reflexivity.
Qed.

(** The envelope of a raw query whose two statements succeed. *)
Lemma pagedRawQuery_ok env query queryParams pageParams row rows data :
  let given := default PageParams.empty pageParams in
  rawQuery' env ("select count(*) as num from (" +:+ query +:+ ") t") queryParams
  = Ok (row :: rows) ->
  rawQuery' env (query +:+ statements' given) queryParams
  = Ok data ->
  pagedRawQuery' env query queryParams pageParams
  = Ok {| PagedResult.data := data;
          PagedResult.count := num row;
          PagedResult.page := default 1%Z (PageParams.page given);
          PagedResult.pageSize := size' given;
          PagedResult.orderBy := PageParams.orderBy given |}.
Proof.
  intros given Hcount Hdata. unfold pagedRawQuery.
  fold given. rewrite Hcount. simpl. rewrite Hdata. reflexivity.
Qed.

(** What a returned envelope says of the two reads. *)
Lemma pagedQuery_inv model criteria pageParams r :
  pagedQuery' model criteria pageParams = Ok r ->
  exists data count,
    client_findMany model
      (findManyArgs' criteria (default PageParams.empty pageParams)) = Ok data
    /\ client_count model (FindManyArgs.where_ criteria) = Ok count
    /\ PagedResult.data r = data /\ PagedResult.count r = VNum count.
Proof.
  unfold pagedQuery. intros H.
  destruct (client_findMany _ _) as [data|]; [|discriminate]. simpl in H.
  destruct (client_count _ _) as [count|]; [|discriminate]. simpl in H.
  injection H as <-. now exists data, count.
Qed.

Lemma pagedRawQuery_inv env query queryParams pageParams r :
  pagedRawQuery' env query queryParams pageParams = Ok r ->
  exists row rows data,
    rawQuery' env ("select count(*) as num from (" +:+ query +:+ ") t")
      queryParams = Ok (row :: rows)
    /\ rawQuery' env
         (query +:+ statements'
                      (default PageParams.empty pageParams)) queryParams
       = Ok data
    /\ PagedResult.data r = data /\ PagedResult.count r = num row.
Proof.
  unfold pagedRawQuery. intros H.
  destruct (rawQuery _ _ _ _ _) as [[|row rows]|] eqn:Hcount;
    [discriminate| |discriminate]. simpl in H.
  destruct (rawQuery _ _ _ _ _) as [data|] eqn:Hdata in H;
    [|discriminate]. simpl in H.
  injection H as <-. now exists row, rows, data.
Qed.

Lemma findManyArgs_limited criteria pageParams :
  (0 < size' pageParams)%Z ->
  FindManyArgs.take (findManyArgs' criteria pageParams)
  = Some (size' pageParams)
  /\ FindManyArgs.skip (findManyArgs' criteria pageParams)
     = Some (size' pageParams * (default 1 (PageParams.page pageParams) - 1))%Z
  /\ limitStatement' pageParams
     = Some ("limit " +:+ pretty (size' pageParams) +:+ " offset "
             +:+ pretty (size' pageParams
                         * (default 1 (PageParams.page pageParams) - 1))%Z).
Proof.
  intros Hpos. apply Z.ltb_lt in Hpos.
  unfold findManyArgs, limitStatement. simpl. now rewrite Hpos.
Qed.

(** A size that is not positive, as a negative [pageSize] gives, leaves
    the data query without a restriction of its own. *)
Lemma findManyArgs_unlimited criteria pageParams :
  (size' pageParams <= 0)%Z ->
  FindManyArgs.take (findManyArgs' criteria pageParams)
  = FindManyArgs.take criteria
  /\ FindManyArgs.skip (findManyArgs' criteria pageParams)
     = FindManyArgs.skip criteria
  /\ limitStatement' pageParams = None.
Proof.
  intros Hneg. apply Z.ltb_ge in Hneg.
  unfold findManyArgs, limitStatement. simpl. now rewrite Hneg.
Qed.

(** The two entry points, by what they read. *)
Lemma pagedQuery_iff model criteria pageParams r :
  let given := default PageParams.empty pageParams in
  pagedQuery' model criteria pageParams = Ok r
  <-> exists data count,
      client_findMany model (findManyArgs' criteria given) = Ok data
      /\ client_count model (FindManyArgs.where_ criteria) = Ok count
      /\ r = {| PagedResult.data := data;
                PagedResult.count := VNum count;
                PagedResult.page := default 1%Z (PageParams.page given);
                PagedResult.pageSize := size' given;
                PagedResult.orderBy := PageParams.orderBy given |}.
Proof.
  intros given. unfold pagedQuery. fold given. split.
  - intros H.
    destruct (client_findMany _ _) as [data|]; [|discriminate]. simpl in H.
    destruct (client_count _ _) as [count|]; [|discriminate]. simpl in H.
    injection H as <-. now exists data, count.
  - intros (data & count & -> & -> & ->). reflexivity.
Qed.

Lemma pagedRawQuery_iff env query queryParams pageParams r :
  let given := default PageParams.empty pageParams in
  pagedRawQuery' env query queryParams pageParams = Ok r
  <-> exists row rows data,
      rawQuery' env ("select count(*) as num from (" +:+ query +:+ ") t")
        queryParams = Ok (row :: rows)
      /\ rawQuery' env (query +:+ statements' given) queryParams = Ok data
      /\ r = {| PagedResult.data := data;
                PagedResult.count := num row;
                PagedResult.page := default 1%Z (PageParams.page given);
                PagedResult.pageSize := size' given;
                PagedResult.orderBy := PageParams.orderBy given |}.
Proof.
  intros given. unfold pagedRawQuery. fold given. split.
  - intros H.
    destruct (rawQuery _ _ _ _ _) as [[|row rows]|] eqn:Hcount;
      [discriminate| |discriminate]. simpl in H.
    destruct (rawQuery _ _ _ _ _) as [data|] eqn:Hdata in H;
      [|discriminate]. simpl in H.
    injection H as <-. now exists row, rows, data.
  - intros (row & rows & data & -> & -> & ->). reflexivity.
Qed.

(** The argument of [findMany] and the suffix of the raw query, written
    out, for a size that is positive and for one that is not. *)
Lemma findManyArgs_spelled criteria pageParams :
  findManyArgs' criteria pageParams
  = {| FindManyArgs.where_ := FindManyArgs.where_ criteria;
       FindManyArgs.take :=
         if (0 <? size' pageParams)%Z then Some (size' pageParams)
         else FindManyArgs.take criteria;
       FindManyArgs.skip :=
         if (0 <? size' pageParams)%Z
         then Some (size' pageParams
                    * (default 1 (PageParams.page pageParams) - 1))%Z
         else FindManyArgs.skip criteria;
       FindManyArgs.orderBy :=
         match PageParams.orderBy pageParams with
         | Some key =>
             if truthyString key
             then Some [(key, if PageParams.sortDescending pageParams
                              then "desc" else "asc")]
             else FindManyArgs.orderBy criteria
         | None => FindManyArgs.orderBy criteria
         end |}.
Proof. reflexivity. Qed.

Lemma statements_spelled pageParams :
  statements' pageParams
  = match PageParams.orderBy pageParams with
    | Some key =>
        if truthyString key
        then "order by " +:+ key +:+ " "
             +:+ (if PageParams.sortDescending pageParams
                  then "desc" else "asc")
             +:+ (if (0 <? size' pageParams)%Z then String "010" "" else "")
        else ""
    | None => ""
    end
    +:+ (if (0 <? size' pageParams)%Z
         then "limit " +:+ pretty (size' pageParams) +:+ " offset "
              +:+ pretty (size' pageParams
                          * (default 1 (PageParams.page pageParams) - 1))%Z
         else "").
Proof.
  unfold statements, orderStatement, limitStatement, direction.
  destruct (PageParams.orderBy pageParams) as [key|];
    [destruct (truthyString key)|];
    destruct (0 <? size' pageParams)%Z; simpl;
    repeat (rewrite ?append_assoc, ?append_empty_r; simpl); reflexivity.
Qed.

(** C1, as amended: with a page size of 0 or none the size of the page
    is DEFAULT_PAGE_SIZE. When that is positive, the rows of
    [pagedQuery] are read with take DEFAULT_PAGE_SIZE and skip
    DEFAULT_PAGE_SIZE times page - 1, and the rows of [pagedRawQuery]
    with the suffix limit DEFAULT_PAGE_SIZE offset that product; when it
    is not positive, the rows are read with the take and skip of the
    criteria, and with no limit in the suffix. In every case the count is
    read from the criteria, or from the query wrapped in a count, with
    no restriction. The numbers are safe integers. *)
Theorem absent_page_size_uses_default model criteria env query queryParams
    pageParams r :
  let given := default PageParams.empty pageParams in
  let page := default 1%Z (PageParams.page given) in
  let ordering :=
    match PageParams.orderBy given with
    | Some key =>
        if truthyString key
        then Some [(key, if PageParams.sortDescending given
                         then "desc" else "asc")]
        else FindManyArgs.orderBy criteria
    | None => FindManyArgs.orderBy criteria
    end in
  let orderText :=
    match PageParams.orderBy given with
    | Some key =>
        if truthyString key
        then "order by " +:+ key +:+ " "
             +:+ (if PageParams.sortDescending given then "desc" else "asc")
        else ""
    | None => ""
    end in
  let lineFeed := if truthy (PageParams.orderBy given)
                  then String "010" "" else "" in
  PageParams.pageSize given = None \/ PageParams.pageSize given = Some 0%Z ->
  isSafeInteger DEFAULT_PAGE_SIZE -> isSafeInteger (page - 1) ->
  isSafeInteger (DEFAULT_PAGE_SIZE * (page - 1)) ->
  ((0 < DEFAULT_PAGE_SIZE)%Z ->
   (pagedQuery' model criteria pageParams = Ok r
    <-> exists data count,
        client_findMany model
          {| FindManyArgs.where_ := FindManyArgs.where_ criteria;
             FindManyArgs.take := Some DEFAULT_PAGE_SIZE;
             FindManyArgs.skip := Some (DEFAULT_PAGE_SIZE * (page - 1))%Z;
             FindManyArgs.orderBy := ordering |} = Ok data
        /\ client_count model (FindManyArgs.where_ criteria) = Ok count
        /\ r = {| PagedResult.data := data;
                  PagedResult.count := VNum count;
                  PagedResult.page := page;
                  PagedResult.pageSize := DEFAULT_PAGE_SIZE;
                  PagedResult.orderBy := PageParams.orderBy given |})
   /\ (pagedRawQuery' env query queryParams pageParams = Ok r
       <-> exists row rows data,
           rawQuery' env ("select count(*) as num from (" +:+ query +:+ ") t")
             queryParams = Ok (row :: rows)
           /\ rawQuery' env
                (query +:+ orderText +:+ lineFeed
                 +:+ "limit " +:+ pretty DEFAULT_PAGE_SIZE +:+ " offset "
                 +:+ pretty (DEFAULT_PAGE_SIZE * (page - 1))%Z)
                queryParams = Ok data
           /\ r = {| PagedResult.data := data;
                     PagedResult.count := num row;
                     PagedResult.page := page;
                     PagedResult.pageSize := DEFAULT_PAGE_SIZE;
                     PagedResult.orderBy := PageParams.orderBy given |}))
  /\ ((DEFAULT_PAGE_SIZE <= 0)%Z ->
      (pagedQuery' model criteria pageParams = Ok r
       <-> exists data count,
           client_findMany model
             {| FindManyArgs.where_ := FindManyArgs.where_ criteria;
                FindManyArgs.take := FindManyArgs.take criteria;
                FindManyArgs.skip := FindManyArgs.skip criteria;
                FindManyArgs.orderBy := ordering |} = Ok data
           /\ client_count model (FindManyArgs.where_ criteria) = Ok count
           /\ r = {| PagedResult.data := data;
                     PagedResult.count := VNum count;
                     PagedResult.page := page;
                     PagedResult.pageSize := DEFAULT_PAGE_SIZE;
                     PagedResult.orderBy := PageParams.orderBy given |})
      /\ (pagedRawQuery' env query queryParams pageParams = Ok r
          <-> exists row rows data,
              rawQuery' env
                ("select count(*) as num from (" +:+ query +:+ ") t")
                queryParams = Ok (row :: rows)
              /\ rawQuery' env (query +:+ orderText) queryParams = Ok data
              /\ r = {| PagedResult.data := data;
                        PagedResult.count := num row;
                        PagedResult.page := page;
                        PagedResult.pageSize := DEFAULT_PAGE_SIZE;
                        PagedResult.orderBy := PageParams.orderBy given |})).
Proof.
  intros given page ordering orderText lineFeed Habsent _ _ _.
  pose proof (size_fallback given Habsent) as Hsize.
  pose proof (pagedQuery_iff model criteria pageParams r) as Hq.
  pose proof (pagedRawQuery_iff env query queryParams pageParams r) as Hraw.
  cbv zeta in Hq, Hraw. fold given in Hq, Hraw.
  rewrite findManyArgs_spelled in Hq. rewrite statements_spelled in Hraw.
  rewrite !Hsize in Hq, Hraw. fold page in Hq, Hraw.
  split.
  - intros Hpos. apply Z.ltb_lt in Hpos. rewrite Hpos in Hq, Hraw.
    split; [exact Hq|].
    rewrite Hraw. unfold orderText, lineFeed.
    destruct (PageParams.orderBy given) as [key|];
      [destruct (truthyString key) eqn:Hkey|]; simpl; rewrite ?Hkey;
      repeat (rewrite ?append_assoc, ?append_empty_r; simpl); reflexivity.
  - intros Hneg. apply Z.ltb_ge in Hneg. rewrite Hneg in Hq, Hraw.
    split; [exact Hq|].
    rewrite Hraw. unfold orderText.
    destruct (PageParams.orderBy given) as [key|];
      [destruct (truthyString key)|]; simpl;
      repeat (rewrite ?append_assoc, ?append_empty_r; simpl); reflexivity.
Qed.

(** C7, as amended: the envelope of either entry point carries the page
    of the caller, 1 when there is none, and the size of the page that
    the call used: the page size of the caller when that is a number
    other than 0, DEFAULT_PAGE_SIZE otherwise; the ordering key is the
    caller's. None of them depends on whether a restriction applied. *)
Theorem envelope_page_and_size model criteria env query queryParams
    pageParams r :
  let given := default PageParams.empty pageParams in
  pagedQuery' model criteria pageParams = Ok r
  \/ pagedRawQuery' env query queryParams pageParams = Ok r ->
  PagedResult.page r = default 1%Z (PageParams.page given)
  /\ PagedResult.pageSize r
     = match PageParams.pageSize given with
       | Some n => if (n =? 0)%Z then DEFAULT_PAGE_SIZE else n
       | None => DEFAULT_PAGE_SIZE
       end
  /\ PagedResult.orderBy r = PageParams.orderBy given.
Proof.
  intros given [Hr | Hr].
  - unfold pagedQuery in Hr. fold given in Hr.
    destruct (client_findMany _ _); [|discriminate]. simpl in Hr.
    destruct (client_count _ _); [|discriminate]. simpl in Hr.
    injection Hr as <-. simpl. unfold size.
    destruct (PageParams.pageSize given); auto.
  - unfold pagedRawQuery in Hr. fold given in Hr.
    destruct (rawQuery _ _ _ _ _) as [[|row rows]|]; try discriminate.
    simpl in Hr.
    destruct (rawQuery _ _ _ _ _); [|discriminate]. simpl in Hr.
    injection Hr as <-. simpl. unfold size.
    destruct (PageParams.pageSize given); auto.
Qed.

End Paging.

Lemma absent_page_size_uses_default_witness :
  (PageParams.pageSize (default PageParams.empty (Some zeroPageSize)) = None
   \/ PageParams.pageSize (default PageParams.empty (Some zeroPageSize))
      = Some 0%Z)
  /\ isSafeInteger 10 /\ isSafeInteger (1 - 1) /\ isSafeInteger (10 * (1 - 1))
  /\ pagedRawQuery 10 (string * list value) echo sevenNum postgres
       "select a from t " ∅ (Some zeroPageSize)
     = Ok {| PagedResult.data := [("select a from t limit 10 offset 0", [])];
             PagedResult.count := VNum 7;
             PagedResult.page := 1;
             PagedResult.pageSize := 10;
             PagedResult.orderBy := None |}.
Proof.
  assert (Hzero : PageParams.pageSize
                    (default PageParams.empty (Some zeroPageSize)) = None
                  \/ PageParams.pageSize
                       (default PageParams.empty (Some zeroPageSize))
                     = Some 0%Z) by (right; reflexivity).
  assert (Hsafe : isSafeInteger 10) by (vm_compute; discriminate).
  assert (Hsafe' : isSafeInteger (1 - 1)) by (vm_compute; discriminate).
  assert (Hsafe'' : isSafeInteger (10 * (1 - 1))) by (vm_compute; discriminate).
  split; [exact Hzero|]. split; [exact Hsafe|]. split; [exact Hsafe'|].
  split; [exact Hsafe''|].
  destruct (absent_page_size_uses_default 10 (string * list value) unit
              noRows emptyCount echo sevenNum "website" noCriteria postgres
              "select a from t " ∅ (Some zeroPageSize)
              {| PagedResult.data := [("select a from t limit 10 offset 0", [])];
                 PagedResult.count := VNum 7;
                 PagedResult.page := 1;
                 PagedResult.pageSize := 10;
                 PagedResult.orderBy := None |}
              Hzero Hsafe Hsafe' Hsafe'') as [Hlimited _].
  destruct (Hlimited eq_refl) as [_ Hraw].
  apply Hraw. eexists _, _, _. repeat split; reflexivity.
Defined.

(** C1, as stated, fails: with a default page size of 10, a page size of
    0 and an absent page size both restrict the data query to ten rows:
    [pagedQuery] reads with take 10 and skip 0, and [pagedRawQuery] runs
    the query with limit 10 offset 0. *)
Lemma zero_page_size_is_limited :
  PageParams.pageSize zeroPageSize = Some 0%Z
  /\ FindManyArgs.take (findManyArgs 10 unit noCriteria zeroPageSize) = Some 10%Z
  /\ FindManyArgs.skip (findManyArgs 10 unit noCriteria zeroPageSize) = Some 0%Z
  /\ statements 10 zeroPageSize = "limit 10 offset 0"
  /\ PageParams.pageSize PageParams.empty = None
  /\ FindManyArgs.take (findManyArgs 10 unit noCriteria PageParams.empty)
     = Some 10%Z
  /\ statements 10 PageParams.empty = "limit 10 offset 0"
  /\ (exists r,
        pagedQuery 10 (FindManyArgs.t unit) unit echoFindMany emptyCount
          "website" noCriteria (Some zeroPageSize) = Ok r
        /\ PagedResult.data r
           = [ {| FindManyArgs.where_ := None;
                  FindManyArgs.take := Some 10%Z;
                  FindManyArgs.skip := Some 0%Z;
                  FindManyArgs.orderBy := None |} ])
  /\ (exists r,
        pagedRawQuery 10 (string * list value) echo sevenNum postgres
          "select a from t " ∅ (Some zeroPageSize) = Ok r
        /\ PagedResult.data r = [("select a from t limit 10 offset 0", [])])
  /\ (exists r,
        pagedRawQuery 10 (string * list value) echo sevenNum postgres
          "select a from t " ∅ None = Ok r
        /\ PagedResult.data r = [("select a from t limit 10 offset 0", [])]).
Proof.
  repeat split; try reflexivity; eexists; split; reflexivity.
Qed.


Lemma envelope_page_and_size_witness :
  (pagedQuery 10 unit unit emptyFindMany emptyCount "website" noCriteria
     (Some zeroPageSize)
   = Ok {| PagedResult.data := []; PagedResult.count := VNum 0;
           PagedResult.page := 1; PagedResult.pageSize := 10;
           PagedResult.orderBy := None |}
   \/ pagedRawQuery 10 unit oneRow zeroNum postgres "select 1" ∅
        (Some zeroPageSize)
      = Ok {| PagedResult.data := []; PagedResult.count := VNum 0;
              PagedResult.page := 1; PagedResult.pageSize := 10;
              PagedResult.orderBy := None |})
  /\ PagedResult.pageSize
       {| PagedResult.data := @nil unit; PagedResult.count := VNum 0;
          PagedResult.page := 1; PagedResult.pageSize := 10;
          PagedResult.orderBy := None |}
     = 10%Z.
Proof.
  split; [left; reflexivity|].
  apply (envelope_page_and_size 10 unit unit emptyFindMany emptyCount oneRow
           zeroNum "website" noCriteria postgres "select 1" ∅
           (Some zeroPageSize)).
  left; reflexivity.
Defined.

(** C7, as stated, fails: with a default page size of 10, a caller who
    gives the page size 0 gets an envelope whose page size is 10, from
    either entry point. *)
Lemma zero_page_size_is_not_echoed :
  PageParams.pageSize zeroPageSize = Some 0%Z
  /\ (exists r,
        pagedQuery 10 unit unit emptyFindMany emptyCount "website" noCriteria
          (Some zeroPageSize) = Ok r
        /\ PagedResult.pageSize r = 10%Z /\ PagedResult.pageSize r <> 0%Z)
  /\ (exists r,
        pagedRawQuery 10 unit oneRow zeroNum postgres "select 1" ∅
          (Some zeroPageSize) = Ok r
        /\ PagedResult.pageSize r = 10%Z /\ PagedResult.pageSize r <> 0%Z).
Proof.
  split; [reflexivity|]. split.
  - eexists. split; [reflexivity|]. split; [reflexivity|discriminate].
  - eexists. split; [reflexivity|]. split; [reflexivity|discriminate].
Qed.

(** ** Filter compiler *)

Section Filters.

Variable filtersToArray : gmap string value -> QueryOptions -> list Filter.
Variable SESSION_COLUMNS : list string.
Variable dateToString : Z -> string.
Variable fetchWebsite : string -> option Website.

Local Abbreviation getFilterQuery' := (getFilterQuery filtersToArray).
Local Abbreviation getFilterParams' :=
  (getFilterParams filtersToArray dateToString).
Local Abbreviation filterParam' := (filterParam dateToString).
Local Abbreviation parseFilters' :=
  (parseFilters filtersToArray SESSION_COLUMNS dateToString fetchWebsite).

Lemma foldl_filterLines env fs acc :
  foldl (fun arr f => (arr ++ filterLines env f)%list) acc fs
  = (acc ++ flat_map (filterLines env) fs)%list.
Proof.
  revert acc. induction fs as [|f fs IH]; intros acc; simpl.
  - now rewrite app_nil_r.
  - rewrite IH. now rewrite <- app_assoc.
Qed.

Lemma getFilterQuery_lines env filters options :
  getFilterQuery' env filters options
  = join (flat_map (filterLines env) (filtersToArray filters options)).
Proof. unfold getFilterQuery. now rewrite foldl_filterLines. Qed.

Lemma getFilterQuery_split env filters options pre f post :
  filtersToArray filters options = (pre ++ f :: post)%list ->
  getFilterQuery' env filters options
  = join (flat_map (filterLines env) pre ++ filterLines env f
          ++ flat_map (filterLines env) post)%list.
Proof.
  intros Hfs. rewrite getFilterQuery_lines, Hfs.
  now rewrite flat_map_app.
Qed.







(** C10: for a filter with a column whose operator is none of equals,
    notEquals, contains and doesNotContain, [mapFilter] gives the empty
    string and the filter query still gets the line that is only the
    word and with a blank. *)
Theorem unmapped_operator_emits_bare_and env filters options pre post f c :
  column f = Some c -> truthyString c = true ->
  operator f <> equals -> operator f <> notEquals ->
  operator f <> contains -> operator f <> doesNotContain ->
  filtersToArray filters options = (pre ++ f :: post)%list ->
  mapFilter env c (operator f) (name f) "" = ""
  /\ filterLines env f
     = "and " :: (if String.eqb (name f) "referrer"
                  then [referrerExclusion] else [])
  /\ getFilterQuery' env filters options
     = join (flat_map (filterLines env) pre
             ++ "and " :: (if String.eqb (name f) "referrer"
                           then [referrerExclusion] else [])
             ++ flat_map (filterLines env) post)%list.
Proof.
  intros Hcol Hc H1 H2 H3 H4 Hfs.
  assert (Hmap : mapFilter env c (operator f) (name f) "" = "").
  { unfold mapFilter. destruct (operator f); congruence. }
  assert (Hlines : filterLines env f
                   = "and " :: (if String.eqb (name f) "referrer"
                                then [referrerExclusion] else [])).
  { unfold filterLines. rewrite Hcol, Hc, Hmap. reflexivity. }
  split; [exact Hmap|]. split; [exact Hlines|].
  rewrite (getFilterQuery_split env filters options pre f post Hfs).
  now rewrite Hlines.
Qed.

(** The parameters of a compiled request, key by key. *)
Lemma parseFilters_params env site websiteId filters options :
  fetchWebsite websiteId = Some site ->
  exists r,
    parseFilters' env websiteId filters options = Ok r
    /\ forall k,
        params r !! k
        = if decide (k = "websiteDomain") then Some (VStr (domain site))
          else if decide (k = "startDate")
          then Some (dateValue (maxDate (asDate (valueOf filters "startDate"))
                                        (resetAt site)))
          else if decide (k = "websiteId") then Some (VStr websiteId)
          else getFilterParams' filters !! k.
Proof.
  intros Hsite. unfold parseFilters. rewrite Hsite.
  eexists. split; [reflexivity|]. intros k. simpl.
  repeat case_decide; subst; simplify_map_eq; reflexivity.
Qed.

(** C4: the parameters of a compiled request hold, under startDate, the
    later of the start date that the filters ask for and the reset date
    of the site: the reset date when the requested start is earlier, the
    requested start when it is not, and the one that is there when the
    other is absent; websiteId and websiteDomain are among the
    parameters. *)
Theorem parseFilters_clamps_startDate env site websiteId filters options :
  fetchWebsite websiteId = Some site ->
  exists r,
    parseFilters filtersToArray SESSION_COLUMNS dateToString fetchWebsite
      env websiteId filters options = Ok r
    /\ (forall requested reset,
           filters !! "startDate" = Some (VDate requested) ->
           resetAt site = Some reset ->
           params r !! "startDate" = Some (VDate (Z.max requested reset))
           /\ ((requested < reset)%Z ->
               params r !! "startDate" = Some (VDate reset))
           /\ ((reset <= requested)%Z ->
               params r !! "startDate" = Some (VDate requested)))
    /\ (forall reset,
           filters !! "startDate" = None ->
           resetAt site = Some reset ->
           params r !! "startDate" = Some (VDate reset))
    /\ (forall requested,
           filters !! "startDate" = Some (VDate requested) ->
           resetAt site = None ->
           params r !! "startDate" = Some (VDate requested))
    /\ params r !! "websiteId" = Some (VStr websiteId)
    /\ params r !! "websiteDomain" = Some (VStr (domain site)).
Proof.
  intros Hsite.
  destruct (parseFilters_params env site websiteId filters options Hsite)
    as (r & Hr & Hparams).
  exists r. split; [exact Hr|].
  assert (Hstart := Hparams "startDate"). simpl in Hstart.
  assert (Hread : forall requested,
             filters !! "startDate" = Some (VDate requested) ->
             asDate (valueOf filters "startDate") = Some requested).
  { intros requested Hreq. unfold valueOf. now rewrite Hreq. }
  assert (Habsent : filters !! "startDate" = None ->
                    asDate (valueOf filters "startDate") = None).
  { intros Hnone. unfold valueOf. now rewrite Hnone. }
  split; [|split; [|split; [|split]]].
  - intros requested reset Hreq Hreset.
    rewrite Hstart, (Hread _ Hreq), Hreset. simpl.
    split; [reflexivity|]. split; intros Horder.
    + now rewrite Z.max_r by lia.
    + now rewrite Z.max_l by lia.
  - intros reset Hreq Hreset. now rewrite Hstart, (Habsent Hreq), Hreset.
  - intros requested Hreq Hreset. now rewrite Hstart, (Hread _ Hreq), Hreset.
  - apply (Hparams "websiteId").
  - apply (Hparams "websiteDomain").
Qed.

(** C9: in the parameters of a compiled request the keys websiteId,
    startDate and websiteDomain hold the computed values whatever the
    filters contribute, also when a filter has one of these names; every
    other key is as the filters give it. *)
Theorem reserved_params_win env site websiteId filters options :
  fetchWebsite websiteId = Some site ->
  exists r,
    parseFilters' env websiteId filters options = Ok r
    /\ (forall f, f ∈ filtersToArray filters noOptions ->
        (name f = "websiteId" ->
         params r !! name f = Some (VStr websiteId))
        /\ (name f = "startDate" ->
            params r !! name f
            = Some (dateValue (maxDate (asDate (valueOf filters "startDate"))
                                       (resetAt site))))
        /\ (name f = "websiteDomain" ->
            params r !! name f = Some (VStr (domain site))))
    /\ params r !! "websiteId" = Some (VStr websiteId)
    /\ params r !! "startDate"
       = Some (dateValue (maxDate (asDate (valueOf filters "startDate"))
                                  (resetAt site)))
    /\ params r !! "websiteDomain" = Some (VStr (domain site))
    /\ (forall k, k <> "websiteId" -> k <> "startDate" -> k <> "websiteDomain" ->
        params r !! k = getFilterParams' filters !! k).
Proof.
  intros Hsite.
  destruct (parseFilters_params env site websiteId filters options Hsite)
    as (r & Hr & Hparams).
  exists r. split; [exact Hr|]. split; [|split; [|split; [|split]]].
  - intros f _. repeat split; intros ->.
    + apply (Hparams "websiteId").
    + apply (Hparams "startDate").
    + apply (Hparams "websiteDomain").
  - apply (Hparams "websiteId").
  - apply (Hparams "startDate").
  - apply (Hparams "websiteDomain").
  - intros k H1 H2 H3. rewrite Hparams.
    repeat case_decide; congruence.
Qed.

End Filters.


Lemma unmapped_operator_emits_bare_and_witness :
  column greaterThanFilter = Some "views"
  /\ getFilterQuery (theFilters [greaterThanFilter]) mysql ∅ noOptions = "and ".
Proof.
  split; [reflexivity|].
  assert (H1 : operator greaterThanFilter <> equals) by discriminate.
  assert (H2 : operator greaterThanFilter <> notEquals) by discriminate.
  assert (H3 : operator greaterThanFilter <> contains) by discriminate.
  assert (H4 : operator greaterThanFilter <> doesNotContain) by discriminate.
  destruct (unmapped_operator_emits_bare_and (theFilters [greaterThanFilter])
              mysql ∅ noOptions [] [] greaterThanFilter "views"
              eq_refl eq_refl H1 H2 H3 H4 eq_refl)
    as (_ & _ & Hquery).
  exact Hquery.
Defined.

Lemma parseFilters_clamps_startDate_witness :
  fetchExample "site-1" = Some exampleSite
  /\ (exists r,
        parseFilters (theFilters []) [] isoString fetchExample postgres "site-1"
          (<["startDate" := VDate 140]> ∅) noOptions = Ok r
        /\ params r !! "startDate" = Some (VDate 140))
  /\ (exists r,
        parseFilters (theFilters []) [] isoString fetchExample postgres "site-1"
          (<["startDate" := VDate 40]> ∅) noOptions = Ok r
        /\ params r !! "startDate" = Some (VDate 100)).
Proof.
  split; [reflexivity|]. split.
  - destruct (parseFilters_clamps_startDate (theFilters []) [] isoString
                fetchExample postgres exampleSite "site-1"
                (<["startDate" := VDate 140]> ∅) noOptions eq_refl)
      as (r & Hr & Hclamp & _).
    exists r. split; [exact Hr|].
    apply (Hclamp 140%Z 100%Z); [reflexivity | reflexivity | lia].
  - destruct (parseFilters_clamps_startDate (theFilters []) [] isoString
                fetchExample postgres exampleSite "site-1"
                (<["startDate" := VDate 40]> ∅) noOptions eq_refl)
      as (r & Hr & Hclamp & _).
    exists r. split; [exact Hr|].
    apply (Hclamp 40%Z 100%Z); [reflexivity | reflexivity | lia].
Defined.

Lemma reserved_params_win_witness :
  fetchExample "site-1" = Some exampleSite
  /\ exists r,
      parseFilters (theFilters reservedFilters) [] isoString fetchExample
        postgres "site-1" ∅ noOptions = Ok r
      /\ params r !! "websiteId" = Some (VStr "site-1").
Proof.
  split; [reflexivity|].
  destruct (reserved_params_win (theFilters reservedFilters) [] isoString
              fetchExample postgres exampleSite "site-1" ∅ noOptions eq_refl)
    as (r & Hr & _ & Hid & _).
  exists r. split; assumption.
Defined.

(** Filters named like the computed keys leave the computed values in
    place; the filter named url keeps its own. *)
Example reserved_filters_do_not_override :
  exists r,
    parseFilters (theFilters reservedFilters) [] isoString fetchExample
      postgres "site-1" ∅ noOptions = Ok r
    /\ getFilterParams (theFilters reservedFilters) isoString ∅ !! "websiteId"
       = Some (VStr "forged")
    /\ params r !! "websiteId" = Some (VStr "site-1")
    /\ params r !! "startDate" = Some (VDate 100)
    /\ params r !! "websiteDomain" = Some (VStr "example.com")
    /\ params r !! "url" = Some (VStr "/").
Proof.
  eexists. split; [reflexivity|]. repeat split; vm_compute; reflexivity.
Qed.

(** ** Template binder *)

Ltac ascii_cases c :=
  destruct c as [[|] [|] [|] [|] [|] [|] [|] [|]].

Lemma word_not_space c : isWord c = true -> isSpace c = false.
Proof. ascii_cases c; vm_compute; congruence. Qed.

Lemma space_not_word c : isSpace c = true -> isWord c = false.
Proof. ascii_cases c; vm_compute; congruence. Qed.

Lemma take_drop p s : takeWhile p s +:+ dropWhile p s = s.
Proof.
  induction s as [|c s IH]; simpl; [reflexivity|].
  destruct (p c); simpl; [now rewrite IH | reflexivity].
Qed.

Lemma every_takeWhile p s : every p (takeWhile p s) = true.
Proof.
  induction s as [|c s IH]; simpl; [reflexivity|].
  destruct (p c) eqn:Hc; simpl; [now rewrite Hc | reflexivity].
Qed.

Lemma takeWhile_dropWhile p s : takeWhile p (dropWhile p s) = "".
Proof.
  induction s as [|c s IH]; simpl; [reflexivity|].
  destruct (p c) eqn:Hc; simpl; [assumption | now rewrite Hc].
Qed.

(** A run that is followed by a text at which the class stops. *)
Lemma takeWhile_run p a b :
  every p a = true -> takeWhile p b = "" -> takeWhile p (a +:+ b) = a.
Proof.
  intros Ha Hb. induction a as [|c a IH]; simpl in *; [assumption|].
  apply andb_prop in Ha as [Hc Ha]. rewrite Hc. now rewrite IH.
Qed.

Lemma dropWhile_run p a b :
  every p a = true -> takeWhile p b = "" -> dropWhile p (a +:+ b) = b.
Proof.
  intros Ha Hb. induction a as [|c a IH]; simpl in *.
  - destruct b as [|c b]; simpl in *; [reflexivity|].
    destruct (p c); [discriminate | reflexivity].
  - apply andb_prop in Ha as [Hc Ha]. rewrite Hc. now apply IH.
Qed.

Lemma takeWhile_stops (p q : ascii -> bool) a b :
  (forall c, q c = true -> p c = false) ->
  every q a = true -> a <> "" -> takeWhile p (a +:+ b) = "".
Proof.
  intros Hpq Ha Hne. destruct a as [|c a]; [contradiction|]. simpl in *.
  apply andb_prop in Ha as [Hc _]. now rewrite (Hpq c Hc).
Qed.

Lemma truthyString_nonempty s : truthyString s = true <-> s <> "".
Proof. destruct s; simpl; split; congruence. Qed.

Lemma matchPlaceholder_braces s1 :
  matchPlaceholder (String "{" (String "{" s1))
  = let s2 := dropWhile isSpace s1 in
    let name := takeWhile isWord s2 in
    let s3 := dropWhile isWord s2 in
    if truthyString name then
      let without := (fun rest => (name, None, rest)) <$> closing s3 in
      match typeHint s3 with
      | Some (type, s4) =>
          match closing s4 with
          | Some rest => Some (name, Some type, rest)
          | None => without
          end
      | None => without
      end
    else None.
Proof. reflexivity. Qed.

Lemma matchPlaceholder_head s :
  matchPlaceholder s <> None -> exists s1, s = String "{" (String "{" s1).
Proof.
  destruct s as [|c1 [|c2 s1]]; [now intros [] | |].
  - ascii_cases c1; now intros [].
  - ascii_cases c1; try now intros [].
    ascii_cases c2; try now intros [].
    intros _. now exists s1.
Qed.

Lemma closing_braces rest : closing ("}}" +:+ rest) = Some rest.
Proof. reflexivity. Qed.

Lemma closing_run blanks rest :
  every isSpace blanks = true -> closing (blanks +:+ "}}" +:+ rest) = Some rest.
Proof.
  intros Hb. unfold closing. rewrite dropWhile_run; auto.
Qed.

Lemma closing_inv s rest :
  closing s = Some rest -> s = takeWhile isSpace s +:+ "}}" +:+ rest.
Proof.
  unfold closing. intros H. rewrite <- (take_drop isSpace s) at 1.
  destruct (dropWhile isSpace s) as [|c1 [|c2 r]]; try discriminate.
  - ascii_cases c1; discriminate.
  - ascii_cases c1; try discriminate. ascii_cases c2; try discriminate.
    now injection H as ->.
Qed.

Lemma typeHint_colons type rest :
  every isWord type = true -> type <> "" -> takeWhile isWord rest = "" ->
  typeHint ("::" +:+ type +:+ rest) = Some ("::" +:+ type, rest).
Proof.
  intros Ht Hne Hrest. change ("::" +:+ type +:+ rest)
    with (String ":" (String ":" (type +:+ rest))).
  unfold typeHint. rewrite takeWhile_run, dropWhile_run by assumption.
  apply truthyString_nonempty in Hne. now rewrite Hne.
Qed.

Lemma typeHint_other c rest : c <> ":"%char -> typeHint (String c rest) = None.
Proof. intros Hc. ascii_cases c; try reflexivity. now contradict Hc. Qed.

Lemma typeHint_inv s hint rest :
  typeHint s = Some (hint, rest) ->
  exists type,
    hint = "::" +:+ type /\ every isWord type = true /\ type <> ""
    /\ s = "::" +:+ type +:+ rest.
Proof.
  destruct s as [|c1 [|c2 s']]; [discriminate| |].
  - ascii_cases c1; discriminate.
  - ascii_cases c1; try discriminate. ascii_cases c2; try discriminate.
    unfold typeHint.
    destruct (truthyString (takeWhile isWord s')) eqn:Hne; [|discriminate].
    intros H. injection H as <- <-. exists (takeWhile isWord s').
    split; [reflexivity|]. split; [apply every_takeWhile|].
    split; [now apply truthyString_nonempty|].
    simpl. now rewrite take_drop.
Qed.

Lemma closing_tail_stops blanks rest :
  every isSpace blanks = true ->
  takeWhile isWord (blanks +:+ "}}" +:+ rest) = "".
Proof.
  intros Hb. destruct blanks as [|c blanks]; [reflexivity|].
  simpl in *. apply andb_prop in Hb as [Hc _].
  now rewrite (space_not_word c Hc).
Qed.

Lemma typeHint_closing_tail blanks rest :
  every isSpace blanks = true ->
  typeHint (blanks +:+ "}}" +:+ rest) = None.
Proof.
  intros Hb. destruct blanks as [|c blanks]; [reflexivity|].
  simpl in *. apply andb_prop in Hb as [Hc _].
  apply typeHint_other. intros ->. discriminate.
Qed.

(** The matcher finds every placeholder that stands at the head. *)
Lemma matchPlaceholder_complete text name type rest :
  Placeholder text name type ->
  matchPlaceholder (text +:+ rest) = Some (name, type, rest).
Proof.
  intros [blanks nm blanks' Hb Hn Hne Hb' | blanks nm ty blanks' Hb Hn Hne Ht Hte Hb'].
  - rewrite !append_assoc.
    change ("{{" +:+ blanks +:+ nm +:+ blanks' +:+ "}}" +:+ rest)
      with (String "{" (String "{" (blanks +:+ nm +:+ blanks' +:+ "}}" +:+ rest))).
    rewrite matchPlaceholder_braces. cbv zeta.
    rewrite (dropWhile_run isSpace blanks)
      by (auto; apply (takeWhile_stops isSpace isWord); auto using word_not_space).
    rewrite (takeWhile_run isWord nm), (dropWhile_run isWord nm)
      by auto using closing_tail_stops.
    apply truthyString_nonempty in Hne. rewrite Hne.
    rewrite typeHint_closing_tail, closing_run by assumption. reflexivity.
  - rewrite !append_assoc.
    change ("{{" +:+ blanks +:+ nm +:+ "::" +:+ ty +:+ blanks' +:+ "}}" +:+ rest)
      with (String "{" (String "{"
              (blanks +:+ nm +:+ "::" +:+ ty +:+ blanks' +:+ "}}" +:+ rest))).
    rewrite matchPlaceholder_braces. cbv zeta.
    rewrite (dropWhile_run isSpace blanks)
      by (auto; apply (takeWhile_stops isSpace isWord); auto using word_not_space).
    rewrite (takeWhile_run isWord nm), (dropWhile_run isWord nm) by auto.
    apply truthyString_nonempty in Hne. rewrite Hne.
    rewrite typeHint_colons by auto using closing_tail_stops.
    rewrite closing_run by assumption. reflexivity.
Qed.

(** What the matcher finds is a placeholder at the head. *)
Lemma matchPlaceholder_sound s name type rest :
  matchPlaceholder s = Some (name, type, rest) ->
  exists text, Placeholder text name type /\ s = text +:+ rest.
Proof.
  intros H.
  destruct (matchPlaceholder_head s) as [s1 ->]; [congruence|].
  rewrite matchPlaceholder_braces in H. cbv zeta in H.
  set (s2 := dropWhile isSpace s1) in *.
  set (nm := takeWhile isWord s2) in *.
  set (s3 := dropWhile isWord s2) in *.
  destruct (truthyString nm) eqn:Hne; [|discriminate].
  apply truthyString_nonempty in Hne.
  assert (Hnm : every isWord nm = true) by apply every_takeWhile.
  assert (Hs1 : s1 = takeWhile isSpace s1 +:+ nm +:+ s3).
  { unfold nm, s3. rewrite take_drop. unfold s2. now rewrite take_drop. }
  assert (Hplain : forall r,
             (fun rest => (nm, None, rest)) <$> closing s3
             = Some (name, type, r) ->
             exists text,
               Placeholder text name type
               /\ String "{" (String "{" s1) = text +:+ r).
  { intros r Hr. destruct (closing s3) as [r'|] eqn:Hclose; [|discriminate].
    simpl in Hr. injection Hr as <- <- <-.
    apply closing_inv in Hclose.
    exists ("{{" +:+ takeWhile isSpace s1 +:+ nm +:+ takeWhile isSpace s3 +:+ "}}").
    split.
    - constructor; auto using every_takeWhile.
    - rewrite !append_assoc. rewrite <- Hclose. simpl. now rewrite <- Hs1. }
  destruct (typeHint s3) as [[hint s4]|] eqn:Hhint; [|now apply Hplain].
  destruct (closing s4) as [r'|] eqn:Hclose; [|now apply Hplain].
  injection H as <- <- <-.
  apply typeHint_inv in Hhint as (ty & -> & Hty & Htne & Hs3).
  apply closing_inv in Hclose.
  exists ("{{" +:+ takeWhile isSpace s1 +:+ nm +:+ "::" +:+ ty
          +:+ takeWhile isSpace s4 +:+ "}}").
  split.
  - constructor; auto using every_takeWhile.
  - rewrite !append_assoc. rewrite <- Hclose.
    change ("::" +:+ ty +:+ s4) with ("::" +:+ (ty +:+ s4)) in Hs3.
    simpl. simpl in Hs3. rewrite <- Hs3. now rewrite <- Hs1.
Qed.

Lemma Placeholder_length text name type :
  Placeholder text name type -> 0 < String.length text.
Proof. intros []; simpl; lia. Qed.

Lemma marker_positional db position type :
  marker db position type = positional db position type.
Proof.
  destruct db, type; simpl; try reflexivity; now rewrite append_empty_r.
Qed.

(** A scan is read off the matcher, position by position. *)
Lemma Scanned_inv sql segments :
  Scanned sql segments ->
  match matchPlaceholder sql with
  | Some (name, type, rest) =>
      exists segments',
        segments = Hole name type :: segments' /\ Scanned rest segments'
  | None =>
      match sql with
      | String c rest =>
          exists segments',
            segments = Literal c :: segments' /\ Scanned rest segments'
      | "" => segments = []
      end
  end.
Proof.
  intros [|text name type rest segments' Hp Hs|c rest segments' Hno Hs].
  - reflexivity.
  - rewrite (matchPlaceholder_complete _ _ _ rest Hp). now exists segments'.
  - destruct (matchPlaceholder (String c rest)) as [[[name type] rest']|] eqn:Hm.
    + apply matchPlaceholder_sound in Hm as (text & Hp & Heq).
      now destruct (Hno text name type rest' Hp).
    + now exists segments'.
Qed.

Lemma matchPlaceholder_shorter s name type rest :
  matchPlaceholder s = Some (name, type, rest) ->
  String.length rest < String.length s.
Proof.
  intros Hm. apply matchPlaceholder_sound in Hm as (text & Hp & ->).
  apply Placeholder_length in Hp. rewrite length_append. lia.
Qed.

(** A template has one scan at most. *)
Lemma Scanned_unique sql segments segments' :
  Scanned sql segments -> Scanned sql segments' -> segments = segments'.
Proof.
  remember (String.length sql) as n eqn:Hn.
  revert sql segments segments' Hn.
  induction n as [n IH] using lt_wf_ind. intros sql a b -> Ha Hb.
  apply Scanned_inv in Ha, Hb.
  destruct (matchPlaceholder sql) as [[[name type] rest]|] eqn:Hm.
  - destruct Ha as (a' & -> & Ha), Hb as (b' & -> & Hb). f_equal.
    apply (IH (String.length rest)) with (sql := rest); auto.
    now apply matchPlaceholder_shorter in Hm.
  - destruct sql as [|c rest]; [congruence|].
    destruct Ha as (a' & -> & Ha), Hb as (b' & -> & Hb). f_equal.
    apply (IH (String.length rest)) with (sql := rest); simpl; auto.
Qed.

Lemma replaceAll_step steps db data sql params :
  replaceAll (S steps) db data sql params
  = match matchPlaceholder sql with
    | Some (name, type, rest) =>
        let params' := (params ++ [valueOf data name])%list in
        let '(query, final) := replaceAll steps db data rest params' in
        (marker db (length params') type +:+ query, final)
    | None =>
        match sql with
        | String c rest =>
            let '(query, final) := replaceAll steps db data rest params in
            (String c query, final)
        | "" => ("", params)
        end
    end.
Proof. reflexivity. Qed.

(** The replacement runs along the scan: it renders the holes from the
    position after the parameters pushed so far and pushes their values. *)
Lemma replaceAll_scanned steps sql :
  String.length sql <= steps ->
  exists segments,
    Scanned sql segments
    /\ forall db data params,
        replaceAll steps db data sql params
        = (render db (S (length params)) segments,
           (params ++ boundValues data segments)%list).
Proof.
  revert sql. induction steps as [|steps IH]; intros sql Hlen.
  - destruct sql; [|simpl in Hlen; lia].
    exists []. split; [constructor|]. intros. simpl. now rewrite app_nil_r.
  - destruct (matchPlaceholder sql) as [[[name type] rest]|] eqn:Hm.
    + pose proof (matchPlaceholder_shorter _ _ _ _ Hm) as Hshort.
      destruct (IH rest) as (segments & Hs & Hrun); [lia|].
      exists (Hole name type :: segments). split.
      * apply matchPlaceholder_sound in Hm as (text & Hp & ->).
        now constructor.
      * intros db data params. rewrite replaceAll_step, Hm. cbv zeta.
        rewrite Hrun, marker_positional, length_app. simpl.
        rewrite Nat.add_1_r, <- app_assoc. reflexivity.
    + destruct sql as [|c rest].
      * exists []. split; [constructor|]. intros.
        rewrite replaceAll_step, Hm. simpl. now rewrite app_nil_r.
      * destruct (IH rest) as (segments & Hs & Hrun); [simpl in Hlen; lia|].
        exists (Literal c :: segments). split.
        -- constructor; [|assumption].
           intros text name type rest' Hp Heq.
           rewrite Heq, (matchPlaceholder_complete _ _ _ rest' Hp) in Hm.
           discriminate.
        -- intros db data params. rewrite replaceAll_step, Hm, Hrun.
           reflexivity.
Qed.

Lemma bindTemplate_scanned sql :
  exists segments,
    Scanned sql segments
    /\ (forall segments', Scanned sql segments' -> segments' = segments)
    /\ forall db data,
        bindTemplate db data sql
        = (render db 1 segments, boundValues data segments).
Proof.
  destruct (replaceAll_scanned (String.length sql) sql) as (segments & Hs & Hrun);
    [lia|].
  exists segments. split; [assumption|]. split.
  - intros segments' Hs'. now apply (Scanned_unique sql).
  - intros db data. unfold bindTemplate. now rewrite Hrun.
Qed.

Section Binding.

Variable Row : Type.
Variable prisma_rawQuery : string -> list value -> result (list Row).

Local Abbreviation rawQuery' := (rawQuery Row prisma_rawQuery).

Lemma rawQuery_scanned env sql data :
  getDatabaseType env <> UnknownDatabase ->
  exists segments,
    Scanned sql segments
    /\ (forall segments', Scanned sql segments' -> segments' = segments)
    /\ rawQuery' env sql data
       = prisma_rawQuery (render (getDatabaseType env) 1 segments)
                         (boundValues data segments).
Proof.
  intros Hdb.
  destruct (bindTemplate_scanned sql) as (segments & Hs & Hu & Hbind).
  exists segments. split; [assumption|]. split; [assumption|].
  unfold rawQuery.
  destruct (getDatabaseType env) eqn:Hd; [| |contradiction];
    now rewrite Hbind.
Qed.

(** C3: on a supported dialect [rawQuery] runs the statement in which
    every placeholder of the template, scanned from the left, is
    replaced by its marker, a question mark on MySQL and a dollar sign
    with the position and the type hint on PostgreSQL, positions
    counting the placeholders from one; the parameters are what the
    parameter map has under the names of the placeholders, in the same
    order, one for each occurrence: the value of the entry when the map
    has one. The scan of a template is unique. *)
Theorem rawQuery_binds_placeholders env sql data :
  getDatabaseType env <> UnknownDatabase ->
  exists segments params,
    Scanned sql segments
    /\ (forall segments', Scanned sql segments' -> segments' = segments)
    /\ rawQuery' env sql data
       = prisma_rawQuery (render (getDatabaseType env) 1 segments) params
    /\ params = map (fun hole => valueOf data (fst hole)) (holes segments)
    /\ length params = length (holes segments)
    /\ (forall i name type v,
           holes segments !! i = Some (name, type) ->
           data !! name = Some v ->
           params !! i = Some v)
    /\ (forall position type,
           positional MYSQL position type = "?"
           /\ positional POSTGRESQL position type
              = "$" +:+ pretty position +:+ default "" type).
Proof.
  intros Hdb.
  destruct (rawQuery_scanned env sql data Hdb) as (segments & Hs & Hu & Hrun).
  exists segments, (boundValues data segments).
  split; [assumption|]. split; [assumption|]. split; [assumption|].
  split; [reflexivity|]. split; [|split].
  - unfold boundValues. now rewrite length_map.
  - intros i name type v Hi Hv. unfold boundValues.
    rewrite list_lookup_fmap, Hi. simpl. unfold valueOf. now rewrite Hv.
  - intros position type. split; [reflexivity|].
    destruct type; simpl; [reflexivity | now rewrite append_empty_r].
Qed.

(** A name that the map does not have binds what [Object.prototype] has
    under it, and [undefined] when that has nothing either; the statement
    reaches the executor in both cases. *)
Lemma missing_name_binds env sql data :
  getDatabaseType env <> UnknownDatabase ->
  exists segments query params,
    Scanned sql segments
    /\ rawQuery' env sql data = prisma_rawQuery query params
    /\ length params = length (holes segments)
    /\ forall i name type,
        holes segments !! i = Some (name, type) ->
        data !! name = None ->
        params !! i
        = Some (if isInherited name then VInherited name else VUndefined).
Proof.
  intros Hdb.
  destruct (rawQuery_scanned env sql data Hdb) as (segments & Hs & _ & Hrun).
  exists segments, (render (getDatabaseType env) 1 segments),
    (boundValues data segments).
  split; [assumption|]. split; [assumption|]. split.
  - unfold boundValues. now rewrite length_map.
  - intros i name type Hi Hmissing. unfold boundValues.
    rewrite list_lookup_fmap, Hi. simpl. unfold valueOf.
    now rewrite Hmissing.
Qed.

End Binding.

(** C6: a placeholder whose name the parameter map does not have is not
    always bound to [undefined]: for a name of [Object.prototype], such
    as toString, the statement is executed with the inherited member as
    its parameter, on both dialects and for each of the twelve names. *)
Theorem inherited_name_is_bound :
  (∅ : gmap string value) !! "toString" = None
  /\ rawQuery (string * list value) echo postgres "select {{toString}}" ∅
     = Ok [("select $1", [VInherited "toString"])]
  /\ rawQuery (string * list value) echo mysql "select {{toString}}" ∅
     = Ok [("select ?", [VInherited "toString"])]
  /\ VInherited "toString" <> VUndefined
  /\ Forall (fun name =>
               bindTemplate POSTGRESQL ∅ ("{{" +:+ name +:+ "}}")
               = ("$1", [VInherited name]))
            objectPrototype.
Proof.
  split; [reflexivity|]. split; [reflexivity|]. split; [reflexivity|].
  split; [discriminate|].
  repeat (apply Forall_cons; split; [reflexivity|]). apply Forall_nil_2.
Qed.

(** The binding of the template of the specification, on both dialects,
    of a template that names a parameter twice, and of one that names a
    parameter that the map does not have. *)
Example bindTemplate_mysql :
  bindTemplate MYSQL exampleData exampleTemplate
  = ("select * from t where id = ? and name = ?", [VNum 5; VStr "a"]).
Proof. reflexivity. Qed.

Example bindTemplate_postgresql :
  bindTemplate POSTGRESQL exampleData exampleTemplate
  = ("select * from t where id = $1 and name = $2::text", [VNum 5; VStr "a"]).
Proof. reflexivity. Qed.

Example bindTemplate_twice :
  bindTemplate POSTGRESQL exampleData "{{id}} < x and x < {{ id }}"
  = ("$1 < x and x < $2", [VNum 5; VNum 5]).
Proof. reflexivity. Qed.

Example bindTemplate_missing :
  bindTemplate POSTGRESQL exampleData "where a = {{id}} and b = {{other::int}}"
  = ("where a = $1 and b = $2::int", [VNum 5; VUndefined]).
Proof. reflexivity. Qed.

Example rawQuery_unknown_database :
  rawQuery unit oneRow {| getDatabaseType := UnknownDatabase; now := 0 |}
    exampleTemplate exampleData
  = Err (Error "Unknown database.").
Proof. reflexivity. Qed.

(** The pagination of the specification: the third page of ten. *)
Example third_page_of_ten :
  let pageParams := {| PageParams.page := Some 3%Z;
                       PageParams.pageSize := Some 10%Z;
                       PageParams.orderBy := None;
                       PageParams.sortDescending := false |} in
  FindManyArgs.take (findManyArgs 10 unit noCriteria pageParams) = Some 10%Z
  /\ FindManyArgs.skip (findManyArgs 10 unit noCriteria pageParams) = Some 20%Z
  /\ statements 10 pageParams = "limit 10 offset 20".
Proof. repeat split; reflexivity. Qed.


(** * Further properties *)

(** ** Fragment generators *)

Section GeneratorEdges.

Variable moment_tz_format_Z : Z -> option string -> string.

(** X1: each of the seven generators that branch on the database type
    returns no fragment exactly when the database type is unknown; the
    search fragment is text on every database type, with [like] when it
    is not PostgreSQL. *)
Theorem generators_undefined_iff_unknown env :
  (forall field interval,
      getAddIntervalQuery env field interval = None
      <-> getDatabaseType env = UnknownDatabase)
  /\ (forall field1 field2,
         getDayDiffQuery env field1 field2 = None
         <-> getDatabaseType env = UnknownDatabase)
  /\ (forall field type,
         getCastColumnQuery env field type = None
         <-> getDatabaseType env = UnknownDatabase)
  /\ (forall field unit timezone,
         getDateSQL moment_tz_format_Z env field unit timezone = None
         <-> getDatabaseType env = UnknownDatabase)
  /\ (forall field timezone,
         getDateWeeklySQL moment_tz_format_Z env field timezone = None
         <-> getDatabaseType env = UnknownDatabase)
  /\ (forall field,
         getTimestampSQL env field = None
         <-> getDatabaseType env = UnknownDatabase)
  /\ (forall field1 field2,
         getTimestampDiffSQL env field1 field2 = None
         <-> getDatabaseType env = UnknownDatabase)
  /\ (forall column,
         getDatabaseType env <> POSTGRESQL ->
         getSearchSQL env column = "and " +:+ column +:+ " like {{search}}").
Proof.
  unfold getAddIntervalQuery, getDayDiffQuery, getCastColumnQuery, getDateSQL,
    getDateWeeklySQL, getTimestampSQL, getTimestampDiffSQL, getSearchSQL, like.
  destruct (getDatabaseType env); repeat split; intros;
    try destruct (truthy _); try discriminate; try congruence; reflexivity.
Qed.

Lemma isInherited_spec name :
  isInherited name = true <-> name ∈ objectPrototype.
Proof.
  unfold isInherited. rewrite existsb_exists. split.
  - intros (x & Hin & Heq). apply String.eqb_eq in Heq as ->.
    now apply list_elem_of_In.
  - intros Hin. exists name. split; [now apply list_elem_of_In|].
    apply String.eqb_refl.
Qed.

Lemma date_formats_unknown unit :
  unit ∉ ["minute"; "hour"; "day"; "month"; "year"] ->
  POSTGRESQL_DATE_FORMATS unit
  = (if isInherited unit then Some (inheritedString unit) else None)
  /\ MYSQL_DATE_FORMATS unit
     = (if isInherited unit then Some (inheritedString unit) else None).
Proof.
  intros Hunit. unfold POSTGRESQL_DATE_FORMATS, MYSQL_DATE_FORMATS.
  repeat match goal with
         | |- context [String.eqb unit ?u] =>
             destruct (String.eqb_spec unit u);
               [subst; exfalso; apply Hunit; set_solver|]
         end.
  split; reflexivity.
Qed.

(** X2: a unit outside minute, hour, day, month and year raises nothing.
    When it is no property name of [Object.prototype], the fragment
    carries the unit as given and the word undefined as its format, on
    both dialects; when it is one, such as toString, the format is the
    print of the inherited member. The weekly fragment of PostgreSQL
    without a time zone names the zone undefined. *)
Theorem unknown_unit_formats_undefined env field unit :
  unit ∉ ["minute"; "hour"; "day"; "month"; "year"] ->
  (unit ∉ objectPrototype ->
   (getDatabaseType env = POSTGRESQL ->
    getDateSQL moment_tz_format_Z env field unit None
    = Some ("to_char(date_trunc('" +:+ unit +:+ "', " +:+ field
            +:+ "), 'undefined')"))
   /\ (getDatabaseType env = MYSQL ->
       getDateSQL moment_tz_format_Z env field unit None
       = Some ("date_format(" +:+ field +:+ ", 'undefined')")))
  /\ (unit ∈ objectPrototype ->
      (getDatabaseType env = POSTGRESQL ->
       getDateSQL moment_tz_format_Z env field unit None
       = Some ("to_char(date_trunc('" +:+ unit +:+ "', " +:+ field
               +:+ "), '" +:+ inheritedString unit +:+ "')"))
      /\ (getDatabaseType env = MYSQL ->
          getDateSQL moment_tz_format_Z env field unit None
          = Some ("date_format(" +:+ field +:+ ", '"
                  +:+ inheritedString unit +:+ "')")))
  /\ (getDatabaseType env = POSTGRESQL ->
      getDateWeeklySQL moment_tz_format_Z env field None
      = Some ("concat(extract(dow from (" +:+ field
              +:+ " at time zone 'undefined')), ':', to_char((" +:+ field
              +:+ " at time zone 'undefined'), 'HH24'))")).
Proof.
  intros Hunit. destruct (date_formats_unknown unit Hunit) as [Hpg Hmy].
  unfold getDateSQL, getDateWeeklySQL.
  split; [|split].
  - intros Hnot.
    assert (Hfalse : isInherited unit = false).
    { destruct (isInherited unit) eqn:Hin; [|reflexivity].
      now apply isInherited_spec in Hin. }
    rewrite Hfalse in Hpg, Hmy.
    split; intros ->; simpl; rewrite ?Hpg, ?Hmy; reflexivity.
  - intros Hin. apply isInherited_spec in Hin. rewrite Hin in Hpg, Hmy.
    split; intros ->; simpl; rewrite ?Hpg, ?Hmy; reflexivity.
  - intros ->. reflexivity.
Qed.

End GeneratorEdges.

Lemma unknown_unit_formats_undefined_witness :
  ("week" ∉ ["minute"; "hour"; "day"; "month"; "year"])
  /\ getDateSQL exampleOffset mysql "created_at" "week" None
     = Some "date_format(created_at, 'undefined')"
  /\ ("toString" ∉ ["minute"; "hour"; "day"; "month"; "year"])
  /\ getDateSQL exampleOffset mysql "created_at" "toString" None
     = Some "date_format(created_at, 'function toString() { [native code] }')".
Proof.
  assert (Hweek : "week" ∉ ["minute"; "hour"; "day"; "month"; "year"]).
  { intros H. repeat (apply elem_of_cons in H as [H|H]; [discriminate|]).
    now apply elem_of_nil in H. }
  assert (Hname : "toString" ∉ ["minute"; "hour"; "day"; "month"; "year"]).
  { intros H. repeat (apply elem_of_cons in H as [H|H]; [discriminate|]).
    now apply elem_of_nil in H. }
  split; [exact Hweek|]. split; [|split; [exact Hname|]].
  - destruct (unknown_unit_formats_undefined exampleOffset mysql "created_at"
                "week" Hweek) as (Hplain & _ & _).
    apply Hplain; [|reflexivity].
    intros H. repeat (apply elem_of_cons in H as [H|H]; [discriminate|]).
    now apply elem_of_nil in H.
  - destruct (unknown_unit_formats_undefined exampleOffset mysql "created_at"
                "toString" Hname) as (_ & Hinherited & _).
    apply Hinherited; [|reflexivity].
    apply isInherited_spec. reflexivity.
Defined.

(** ** Bucket texts *)

(** X3: for the units hour, day, month and year the two engines give a
    timestamp the same text, whatever the timestamp. *)
Theorem bucket_text_agrees unit t :
  unit ∈ ["hour"; "day"; "month"; "year"] ->
  Engine.bucket_text POSTGRESQL unit t = Engine.bucket_text MYSQL unit t
  /\ is_Some (Engine.bucket_text MYSQL unit t).
Proof.
  intros Hunit.
  repeat (apply elem_of_cons in Hunit as [->|Hunit]);
    [..|now apply elem_of_nil in Hunit].
  - split; [apply bucket_text_hour | eexists; reflexivity].
  - split; [apply bucket_text_day | eexists; reflexivity].
  - split; [apply bucket_text_month | eexists; reflexivity].
  - split; [apply bucket_text_year | eexists; reflexivity].
Qed.

Lemma bucket_text_agrees_witness :
  ("month" ∈ ["hour"; "day"; "month"; "year"])
  /\ Engine.bucket_text POSTGRESQL "month" exampleTimestamp
     = Engine.bucket_text MYSQL "month" exampleTimestamp.
Proof.
  assert (Hunit : "month" ∈ ["hour"; "day"; "month"; "year"]).
  { do 2 apply list_elem_of_further. apply list_elem_of_here. }
  split; [exact Hunit|].
  apply (bucket_text_agrees "month" exampleTimestamp Hunit).
Defined.

(** X4: two timestamps that PostgreSQL truncates to the same bucket get
    the same text from either engine, for each of the five units: the
    format of MySQL reads no field that the truncation resets. *)
Theorem same_bucket_same_text db unit t t' :
  unit ∈ ["minute"; "hour"; "day"; "month"; "year"] ->
  Engine.date_trunc unit t = Engine.date_trunc unit t' ->
  Engine.bucket_text db unit t = Engine.bucket_text db unit t'.
Proof. apply bucket_text_same_bucket. Qed.

Lemma same_bucket_same_text_witness :
  ("hour" ∈ ["minute"; "hour"; "day"; "month"; "year"])
  /\ Engine.bucket_text MYSQL "hour" exampleTimestamp
     = Engine.bucket_text MYSQL "hour"
         {| Engine.year := 2023; Engine.month := 5; Engine.day := 17;
            Engine.hour := 13; Engine.minute := 2; Engine.second := 50 |}.
Proof.
  assert (Hunit : "hour" ∈ ["minute"; "hour"; "day"; "month"; "year"]).
  { apply list_elem_of_further. apply list_elem_of_here. }
  split; [exact Hunit|].
  apply (same_bucket_same_text MYSQL "hour" exampleTimestamp _ Hunit).
  reflexivity.
Defined.

(** ** Templates of pieces and the binder *)

Lemma every_append p a b : every p (a +:+ b) = every p a && every p b.
Proof.
  induction a as [|c a IH]; simpl; [reflexivity|].
  now rewrite IH, andb_assoc.
Qed.

Lemma Placeholder_opening text name type :
  Placeholder text name type ->
  exists tail, text = String "{" (String "{" tail).
Proof. intros []; eexists; reflexivity. Qed.

Lemma no_placeholder_at c rest :
  isOpening c = false ->
  forall text name type rest',
    Placeholder text name type -> String c rest <> text +:+ rest'.
Proof.
  intros Hc text name type rest' Hp Heq.
  apply Placeholder_opening in Hp as [tail ->]. simpl in Heq.
  injection Heq as -> _. discriminate.
Qed.

Lemma Scanned_literals s rest segments :
  every (fun c => negb (isOpening c)) s = true ->
  Scanned rest segments ->
  Scanned (s +:+ rest) (literals s ++ segments)%list.
Proof.
  intros Hs Hrest. induction s as [|c s IH]; simpl in *; [assumption|].
  apply andb_prop in Hs as [Hc Hs]. apply negb_true_iff in Hc.
  constructor; [now apply no_placeholder_at | now apply IH].
Qed.

Lemma isIdentifier_spec s :
  isIdentifier s = true <-> every isWord s = true /\ s <> "".
Proof.
  unfold isIdentifier. rewrite andb_true_iff, truthyString_nonempty.
  reflexivity.
Qed.

Lemma Placeholder_of_name name :
  isIdentifier name = true ->
  Placeholder (placeholderText name None) name None.
Proof.
  intros [Hw Hne]%isIdentifier_spec.
  apply (PlainPlaceholder "" name ""); auto.
Qed.

Lemma Placeholder_of_name_type name hint :
  isIdentifier name = true -> isIdentifier hint = true ->
  Placeholder (placeholderText name (Some hint)) name (Some ("::" +:+ hint)).
Proof.
  intros [Hw Hne]%isIdentifier_spec [Hw' Hne']%isIdentifier_spec.
  apply (TypedPlaceholder "" name hint ""); auto.
Qed.

Lemma Scanned_surface pieces :
  forallb wellFormed pieces = true ->
  Scanned (surface pieces) (segmentsOf pieces).
Proof.
  induction pieces as [|[s|name [hint|]] pieces IH]; intros Hwf;
    simpl in Hwf.
  - constructor.
  - apply andb_prop in Hwf as [Hs Hwf].
    change (Scanned (s +:+ surface pieces)
                    (literals s ++ segmentsOf pieces)%list).
    apply Scanned_literals; auto.
  - apply andb_prop in Hwf as [Hp Hwf]. apply andb_prop in Hp as [Hn Hh].
    change (Scanned (placeholderText name (Some hint) +:+ surface pieces)
                    (Hole name (Some ("::" +:+ hint)) :: segmentsOf pieces)).
    apply ScannedHole; [now apply Placeholder_of_name_type | now apply IH].
  - apply andb_prop in Hwf as [Hn Hwf].
    change (Scanned (placeholderText name None +:+ surface pieces)
                    (Hole name None :: segmentsOf pieces)).
    apply ScannedHole; [now apply Placeholder_of_name | now apply IH].
Qed.

Lemma rawQuery_binds_placeholders_witness :
  getDatabaseType postgres <> UnknownDatabase
  /\ rawQuery (string * list value) echo postgres exampleTemplate exampleData
     = Ok [("select * from t where id = $1 and name = $2::text",
            [VNum 5; VStr "a"])].
Proof.
  assert (Hdb : getDatabaseType postgres <> UnknownDatabase) by discriminate.
  split; [exact Hdb|].
  destruct (rawQuery_binds_placeholders (string * list value) echo postgres
              exampleTemplate exampleData Hdb)
    as (segments & params & Hs & Hu & Hrun & -> & _).
  assert (Hp : Scanned exampleTemplate
                  (segmentsOf [Text "select * from t where id = ";
                               Param "id" None; Text " and name = ";
                               Param "name" (Some "text")])).
  { apply (Scanned_surface [Text "select * from t where id = ";
                            Param "id" None; Text " and name = ";
                            Param "name" (Some "text")]).
    reflexivity. }
  rewrite Hrun, <- (Hu _ Hp). reflexivity.
Defined.

Lemma render_literals db position s segments :
  render db position (literals s ++ segments)%list
  = s +:+ render db position segments.
Proof. induction s as [|c s IH]; simpl; [reflexivity | now rewrite IH]. Qed.

Lemma holes_literals s segments :
  holes (literals s ++ segments)%list = holes segments.
Proof. induction s as [|c s IH]; simpl; auto. Qed.

Lemma render_segmentsOf db position pieces :
  render db position (segmentsOf pieces) = statement db position pieces.
Proof.
  revert position.
  induction pieces as [|[s|name type] pieces IH]; intros position; simpl.
  - reflexivity.
  - now rewrite render_literals, IH.
  - now rewrite IH.
Qed.

Lemma boundValues_segmentsOf data pieces :
  boundValues data (segmentsOf pieces) = map (valueOf data) (names pieces).
Proof.
  unfold boundValues.
  induction pieces as [|[s|name type] pieces IH]; simpl.
  - reflexivity.
  - now rewrite holes_literals.
  - now rewrite IH.
Qed.

(** X6: a template put together from text without an opening brace and
    from placeholders whose names (and types) are runs of word characters
    binds piece by piece: the text stays, every placeholder becomes the
    marker of its position, and the parameters are the values of the
    names in the order of the placeholders. *)
Theorem bindTemplate_pieces db data pieces :
  forallb wellFormed pieces = true ->
  bindTemplate db data (surface pieces)
  = (statement db 1 pieces, map (valueOf data) (names pieces)).
Proof.
  intros Hwf.
  destruct (bindTemplate_scanned (surface pieces)) as (segments & _ & Hu & Hb).
  rewrite Hb, <- (Hu _ (Scanned_surface pieces Hwf)).
  now rewrite render_segmentsOf, boundValues_segmentsOf.
Qed.

Lemma bindTemplate_pieces_witness :
  forallb wellFormed
    [Text "select * from t where id = "; Param "id" None;
     Text " and name = "; Param "name" (Some "text")] = true
  /\ bindTemplate POSTGRESQL exampleData exampleTemplate
     = ("select * from t where id = $1 and name = $2::text",
        [VNum 5; VStr "a"]).
Proof.
  split; [reflexivity|].
  apply (bindTemplate_pieces POSTGRESQL exampleData
           [Text "select * from t where id = "; Param "id" None;
            Text " and name = "; Param "name" (Some "text")]).
  reflexivity.
Defined.

Lemma render_without_holes db position sql segments :
  Scanned sql segments -> holes segments = [] ->
  render db position segments = sql.
Proof.
  intros Hs. revert position.
  induction Hs as [|text name type rest segments Hp Hs IH
                   |c rest segments Hno Hs IH]; intros position Hholes; simpl.
  - reflexivity.
  - discriminate.
  - now rewrite IH.
Qed.

(** X5: when the binder binds no parameter, the statement is the template
    as it was given. *)
Theorem bindTemplate_nothing_bound db data sql :
  snd (bindTemplate db data sql) = [] ->
  fst (bindTemplate db data sql) = sql.
Proof.
  destruct (bindTemplate_scanned sql) as (segments & Hs & _ & Hb).
  rewrite Hb. simpl. unfold boundValues. intros Hnil.
  apply map_eq_nil in Hnil. now apply (render_without_holes db 1 sql).
Qed.

Lemma bindTemplate_nothing_bound_witness :
  snd (bindTemplate MYSQL exampleData "select {{ 1 from t") = []
  /\ fst (bindTemplate MYSQL exampleData "select {{ 1 from t")
     = "select {{ 1 from t".
Proof.
  split; [reflexivity|].
  apply (bindTemplate_nothing_bound MYSQL exampleData "select {{ 1 from t").
  reflexivity.
Defined.

(** ** The statement that reaches the executor *)

Lemma every_impl (p q : ascii -> bool) s :
  (forall c, p c = true -> q c = true) ->
  every p s = true -> every q s = true.
Proof.
  intros Hpq. induction s as [|c s IH]; simpl; [reflexivity|].
  intros [Hc Hs]%andb_prop. now rewrite (Hpq c Hc), IH.
Qed.

Lemma word_not_opening c : isWord c = true -> negb (isOpening c) = true.
Proof. ascii_cases c; vm_compute; congruence. Qed.

Lemma word_placeholder_char c : isWord c = true -> isPlaceholderChar c = true.
Proof. unfold isPlaceholderChar. now intros ->. Qed.

Lemma space_placeholder_char c : isSpace c = true -> isPlaceholderChar c = true.
Proof. unfold isPlaceholderChar. intros ->. now rewrite orb_true_r. Qed.

Lemma pretty_N_char_no_opening d :
  negb (isOpening (pretty_N_char d)) = true.
Proof. unfold pretty_N_char. repeat case_match; reflexivity. Qed.

Lemma pretty_N_go_no_opening x s :
  every (fun c => negb (isOpening c)) s = true ->
  every (fun c => negb (isOpening c)) (pretty_N_go x s) = true.
Proof.
  revert s. induction (N.lt_wf_0 x) as [x _ IH]; intros s Hs.
  assert (x = 0 \/ 0 < x)%N as [->|Hpos] by lia.
  - now rewrite pretty_N_go_0.
  - rewrite pretty_N_go_step by assumption. apply IH.
    + now apply N.div_lt.
    + simpl. now rewrite pretty_N_char_no_opening.
Qed.

Lemma pretty_nat_no_opening_N (x : N) :
  every (fun c => negb (isOpening c)) (pretty x) = true.
Proof.
  unfold pretty, pretty_N.
  case_decide; [reflexivity|]. now apply pretty_N_go_no_opening.
Qed.

Lemma pretty_nat_no_opening (n : nat) :
  every (fun c => negb (isOpening c)) (pretty n) = true.
Proof. apply (pretty_nat_no_opening_N (N.of_nat n)). Qed.

Lemma Placeholder_hintOk text name type :
  Placeholder text name type -> hintOk type.
Proof. intros []; simpl; eauto. Qed.

Lemma positional_no_opening db position type :
  hintOk type ->
  every (fun c => negb (isOpening c)) (positional db position type) = true.
Proof.
  intros Hok. destruct db, type as [hint|]; simpl; try reflexivity;
    try (destruct Hok as (word & -> & Hw));
    rewrite ?every_append, ?pretty_nat_no_opening; simpl;
    try reflexivity;
    apply (every_impl isWord); auto using word_not_opening.
Qed.

Lemma positional_head db position type :
  exists m tail,
    positional db position type = String m tail
    /\ isPlaceholderChar m = false.
Proof.
  destruct db, type; simpl; eexists _, _; split; reflexivity.
Qed.

Lemma Placeholder_chars text name type :
  Placeholder text name type -> every isPlaceholderChar text = true.
Proof.
  assert (Hword : forall s, every isWord s = true ->
                             every isPlaceholderChar s = true).
  { intros s. apply every_impl, word_placeholder_char. }
  assert (Hspace : forall s, every isSpace s = true ->
                              every isPlaceholderChar s = true).
  { intros s. apply every_impl, space_placeholder_char. }
  intros [blanks nm blanks' Hb Hn _ Hb'
         |blanks nm ty blanks' Hb Hn _ Ht _ Hb'].
  - change (every isPlaceholderChar (blanks +:+ nm +:+ blanks' +:+ "}}") = true).
    rewrite !every_append, (Hspace blanks), (Hword nm), (Hspace blanks')
      by assumption.
    reflexivity.
  - change (every isPlaceholderChar
              (blanks +:+ nm +:+ "::" +:+ ty +:+ blanks' +:+ "}}") = true).
    rewrite !every_append, (Hspace blanks), (Hword nm), (Hword ty),
      (Hspace blanks') by assumption.
    reflexivity.
Qed.

(** Text of placeholder characters at the head of the statement stands at
    the head of the template too. *)
Lemma render_prefix db sql segments :
  Scanned sql segments ->
  forall position text rest,
    every isPlaceholderChar text = true ->
    render db position segments = text +:+ rest ->
    exists rest', sql = text +:+ rest'.
Proof.
  induction 1 as [|ptext name type tail segments Hp Hs IH
                  |c tail segments Hno Hs IH];
    intros position text rest Htext Heq; simpl in Heq.
  - destruct text; [now exists "" | discriminate].
  - destruct text as [|a text]; [now eexists|].
    destruct (positional_head db position type) as (m & mtail & Hm & Hchar).
    rewrite Hm in Heq. simpl in Heq. injection Heq as -> _.
    simpl in Htext. now rewrite Hchar in Htext.
  - destruct text as [|a text]; [now eexists|].
    simpl in Heq, Htext. injection Heq as -> Heq.
    apply andb_prop in Htext as [_ Htext].
    destruct (IH position text rest Htext Heq) as [rest' ->].
    now exists rest'.
Qed.

Lemma literals_append a b :
  literals (a +:+ b) = (literals a ++ literals b)%list.
Proof. induction a as [|c a IH]; simpl; [reflexivity | now rewrite IH]. Qed.

Lemma render_all_literals db position s :
  render db position (literals s) = s.
Proof. induction s as [|c s IH]; simpl; [reflexivity | now rewrite IH]. Qed.

Lemma holes_all_literals s : holes (literals s) = [].
Proof. induction s as [|c s IH]; simpl; auto. Qed.

(** No placeholder is left in the statement. *)
Lemma Scanned_render db sql segments :
  Scanned sql segments ->
  forall position,
    Scanned (render db position segments)
            (literals (render db position segments)).
Proof.
  intros Hs.
  induction Hs as [|ptext name type tail segments Hp Hs IH
                   |c tail segments Hno Hs IH]; intros position.
  - constructor.
  - change (render db position (Hole name type :: segments))
      with (positional db position type +:+ render db (S position) segments).
    rewrite literals_append.
    apply Scanned_literals; [|apply IH].
    apply positional_no_opening. now apply (Placeholder_hintOk ptext name).
  - change (render db position (Literal c :: segments))
      with (String c (render db position segments)).
    change (literals (String c (render db position segments)))
      with (Literal c :: literals (render db position segments)).
    constructor; [|apply IH].
    intros text nm ty rest' Hp Heq.
    destruct (render_prefix db (String c tail) (Literal c :: segments)
                (ScannedLiteral c tail segments Hno Hs)
                position text rest' (Placeholder_chars _ _ _ Hp) Heq)
      as [rest'' Heq'].
    exact (Hno text nm ty rest'' Hp Heq').
Qed.

(** X7: the statement that the binder hands on holds no placeholder any
    more: binding it again, with any parameter map, binds nothing and
    leaves it as it is. *)
Theorem bindTemplate_leaves_no_placeholder db data data' sql :
  bindTemplate db data' (fst (bindTemplate db data sql))
  = (fst (bindTemplate db data sql), []).
Proof.
  destruct (bindTemplate_scanned sql) as (segments & Hs & _ & Hb).
  rewrite Hb. simpl.
  destruct (bindTemplate_scanned (render db 1 segments))
    as (segments' & _ & Hu & Hb').
  rewrite Hb', <- (Hu _ (Scanned_render db sql segments Hs 1)).
  unfold boundValues.
  now rewrite render_all_literals, holes_all_literals.
Qed.

(** ** The filter query and the binder *)

Lemma surface_app a b : surface (a ++ b)%list = surface a +:+ surface b.
Proof.
  induction a as [|[s|name type] a IH]; simpl; [reflexivity|..];
    rewrite IH; now rewrite ?append_assoc.
Qed.

Lemma names_app a b : names (a ++ b)%list = (names a ++ names b)%list.
Proof. induction a as [|[s|name type] a IH]; simpl; congruence. Qed.

Lemma join_surface lines : join (map surface lines) = surface (joinPieces lines).
Proof.
  induction lines as [|line [|line' lines] IH]; [reflexivity| |].
  - simpl. reflexivity.
  - change (join (map surface (line :: line' :: lines)))
      with (surface line +:+ String "010" (join (map surface (line' :: lines)))).
    change (joinPieces (line :: line' :: lines))
      with (line ++ Text (String "010" "") :: joinPieces (line' :: lines))%list.
    rewrite surface_app, IH. reflexivity.
Qed.

Lemma names_joinPieces lines :
  names (joinPieces lines) = flat_map names lines.
Proof.
  induction lines as [|line [|line' lines] IH]; [reflexivity| |].
  - simpl. now rewrite app_nil_r.
  - change (joinPieces (line :: line' :: lines))
      with (line ++ Text (String "010" "") :: joinPieces (line' :: lines))%list.
    rewrite names_app.
    change (names (Text (String "010" "") :: joinPieces (line' :: lines)))
      with (names (joinPieces (line' :: lines))).
    rewrite IH. reflexivity.
Qed.

Lemma wellFormed_joinPieces lines :
  forallb (forallb wellFormed) lines = true ->
  forallb wellFormed (joinPieces lines) = true.
Proof.
  induction lines as [|line [|line' lines] IH]; [reflexivity| |].
  - simpl. now rewrite andb_true_r.
  - intros Hwf.
    change (joinPieces (line :: line' :: lines))
      with (line ++ Text (String "010" "") :: joinPieces (line' :: lines))%list.
    simpl in Hwf. apply andb_prop in Hwf as [Hline Hrest].
    rewrite forallb_app, Hline. simpl. apply IH. exact Hrest.
Qed.

Lemma mapFilter_surface env c operator name :
  mapFilter env c operator name "" = surface (mapFilterPieces env c operator name).
Proof.
  unfold mapFilter. destruct operator; simpl;
    repeat (rewrite ?append_assoc, ?append_empty_r; simpl); reflexivity.
Qed.

Lemma filterLines_surface env f :
  filterLines env f = map surface (filterPieces env f).
Proof.
  unfold filterLines, filterPieces.
  destruct (column f) as [c|]; [|reflexivity].
  destruct (truthyString c); [|reflexivity].
  rewrite mapFilter_surface.
  destruct (String.eqb (name f) "referrer"); reflexivity.
Qed.

Lemma like_no_opening env :
  every (fun c => negb (isOpening c)) (like env) = true.
Proof. unfold like. destruct (getDatabaseType env); reflexivity. Qed.

Lemma filterPieces_wellFormed env f :
  bindable f = true ->
  forallb (forallb wellFormed) (filterPieces env f) = true.
Proof.
  unfold bindable, filterPieces.
  destruct (column f) as [c|]; [|reflexivity].
  destruct (truthyString c); [|reflexivity].
  intros [Hc Hn]%andb_prop.
  assert (Hline : forallb wellFormed
                    (Text "and " :: mapFilterPieces env c (operator f) (name f))
                  = true).
  { unfold mapFilterPieces. destruct (operator f); simpl;
      repeat (rewrite ?every_append, ?Hc, ?Hn, ?like_no_opening; simpl);
      reflexivity. }
  destruct (String.eqb (name f) "referrer");
    apply andb_true_intro; split; solve [exact Hline | reflexivity].
Qed.

Lemma filterPieces_names env f :
  flat_map names (filterPieces env f) = filterNames f.
Proof.
  unfold filterPieces, filterNames.
  destruct (column f) as [c|]; [|reflexivity].
  destruct (truthyString c); [|reflexivity].
  destruct (operator f), (String.eqb (name f) "referrer"); reflexivity.
Qed.

Lemma flat_map_flat_map {A B C} (f : A -> list B) (g : B -> list C) l :
  flat_map g (flat_map f l) = flat_map (fun x => flat_map g (f x)) l.
Proof.
  induction l as [|x l IH]; simpl; [reflexivity|].
  now rewrite flat_map_app, IH.
Qed.

Lemma forallb_flat_map {A B} (p : B -> bool) (f : A -> list B) l :
  forallb (fun x => forallb p (f x)) l = true ->
  forallb p (flat_map f l) = true.
Proof.
  induction l as [|x l IH]; simpl; [reflexivity|].
  intros [Hx Hl]%andb_prop. rewrite forallb_app, Hx. now apply IH.
Qed.

Lemma flat_map_filterLines env fs :
  flat_map (filterLines env) fs = map surface (flat_map (filterPieces env) fs).
Proof.
  induction fs as [|f fs IH]; [reflexivity|].
  simpl. now rewrite map_app, filterLines_surface, IH.
Qed.

Lemma flat_map_filterNames env fs :
  flat_map (fun f => flat_map names (filterPieces env f)) fs
  = flat_map filterNames fs.
Proof.
  induction fs as [|f fs IH]; [reflexivity|].
  simpl. now rewrite filterPieces_names, IH.
Qed.

Lemma bindable_wellFormed env fs :
  forallb bindable fs = true ->
  forallb (fun f => forallb (forallb wellFormed) (filterPieces env f)) fs = true.
Proof.
  induction fs as [|f fs IH]; [reflexivity|]. simpl.
  intros [Hf Hfs]%andb_prop.
  rewrite (filterPieces_wellFormed env f Hf). now apply IH.
Qed.

Section FilterQueryBinds.

Variable filtersToArray : gmap string value -> QueryOptions -> list Filter.

(** X9: when every filter with a column has a column without an opening
    brace and a name of word characters, the filter query binds line by
    line: a filter with a column and one of the four mapped operators
    gives one parameter, the value under its name; a filter named
    referrer gives one more, the value under websiteDomain; a filter
    without a column or with another operator gives none; the parameters
    keep the order of the filters. *)
Theorem getFilterQuery_binds env db data filters options :
  forallb bindable (filtersToArray filters options) = true ->
  bindTemplate db data (getFilterQuery filtersToArray env filters options)
  = (statement db 1
       (joinPieces (flat_map (filterPieces env) (filtersToArray filters options))),
     map (valueOf data) (flat_map filterNames (filtersToArray filters options))).
Proof.
  intros Hfs.
  rewrite getFilterQuery_lines, flat_map_filterLines, join_surface.
  rewrite bindTemplate_pieces.
  - now rewrite names_joinPieces, flat_map_flat_map, flat_map_filterNames.
  - apply wellFormed_joinPieces, forallb_flat_map.
    now apply bindable_wellFormed.
Qed.

End FilterQueryBinds.

Lemma getFilterQuery_binds_witness :
  forallb bindable [greaterThanFilter; referrerFilter] = true
  /\ bindTemplate POSTGRESQL
       (<["referrer" := VStr "%x%"]> (<["websiteDomain" := VStr "example.com"]> ∅))
       (getFilterQuery (theFilters [greaterThanFilter; referrerFilter])
          postgres ∅ noOptions)
     = (join ["and ";
              "and website_event.referrer_domain ilike $1";
              "and (website_event.referrer_domain != $2 or website_event.referrer_domain is null)"],
        [VStr "%x%"; VStr "example.com"]).
Proof.
  split; [reflexivity|].
  rewrite (getFilterQuery_binds (theFilters [greaterThanFilter; referrerFilter])
             postgres POSTGRESQL _ ∅ noOptions eq_refl).
  reflexivity.
Defined.

(** X8: the search fragment of a column without an opening brace binds
    to one parameter, the value under search, behind [like], or [ilike]
    on PostgreSQL. *)
Theorem getSearchSQL_binds env db data column :
  every (fun c => negb (isOpening c)) column = true ->
  bindTemplate db data (getSearchSQL env column)
  = ("and " +:+ column +:+ " " +:+ like env +:+ " "
     +:+ positional db 1 None,
     [valueOf data "search"]).
Proof.
  intros Hc.
  assert (Hs : getSearchSQL env column
               = surface [Text ("and " +:+ column +:+ " " +:+ like env +:+ " ");
                          Param "search" None]).
  { unfold getSearchSQL. simpl.
    repeat (rewrite ?append_assoc, ?append_empty_r; simpl). reflexivity. }
  rewrite Hs, bindTemplate_pieces.
  - simpl. repeat (rewrite ?append_assoc, ?append_empty_r; simpl).
    reflexivity.
  - simpl.
    repeat (rewrite ?every_append, ?Hc, ?like_no_opening; simpl).
    reflexivity.
Qed.

Lemma getSearchSQL_binds_witness :
  every (fun c => negb (isOpening c)) "username" = true
  /\ bindTemplate MYSQL (<["search" := VStr "%ann%"]> ∅)
       (getSearchSQL mysql "username")
     = ("and username like ?", [VStr "%ann%"]).
Proof.
  split; [reflexivity|].
  rewrite (getSearchSQL_binds mysql MYSQL (<["search" := VStr "%ann%"]> ∅)
             "username" eq_refl).
  reflexivity.
Defined.

(** ** Parameters of the filters *)

Section FilterParams.

Variable filtersToArray : gmap string value -> QueryOptions -> list Filter.
Variable SESSION_COLUMNS : list string.
Variable dateToString : Z -> string.
Variable fetchWebsite : string -> option Website.

Local Abbreviation getFilterParams' :=
  (getFilterParams filtersToArray dateToString).
Local Abbreviation filterParam' := (filterParam dateToString).
Local Abbreviation parseFilters' :=
  (parseFilters filtersToArray SESSION_COLUMNS dateToString fetchWebsite).





(** X14: when the lookup of the site gives no site, compiling the
    filters fails with a type error, although the reset date is read
    with a guard: the domain is not; when it gives a site, compiling
    succeeds whatever the filters and options are. *)
Theorem parseFilters_needs_site env websiteId filters options :
  (fetchWebsite websiteId = None ->
   exists message,
     parseFilters filtersToArray SESSION_COLUMNS dateToString fetchWebsite
       env websiteId filters options = Err (TypeError message))
  /\ (forall site,
         fetchWebsite websiteId = Some site ->
         exists r,
           parseFilters filtersToArray SESSION_COLUMNS dateToString fetchWebsite
             env websiteId filters options = Ok r
           /\ params r !! "websiteDomain" = Some (VStr (domain site))).
Proof.
  unfold parseFilters. split.
  - intros ->. eauto.
  - intros site ->. eexists. split; [reflexivity|]. simpl.
    now simplify_map_eq.
Qed.

Lemma find_session_key (keys : list string) :
  "" ∉ SESSION_COLUMNS ->
  truthy (List.find (fun key => bool_decide (key ∈ SESSION_COLUMNS)) keys) = true
  <-> exists key, key ∈ keys /\ key ∈ SESSION_COLUMNS.
Proof.
  intros Hempty. split.
  - destruct (List.find _ keys) as [key|] eqn:Hfind; [|discriminate].
    intros _. apply find_some in Hfind as [Hin Hdec].
    exists key. split; [now apply list_elem_of_In | now apply bool_decide_eq_true in Hdec].
  - intros (key & Hin & Hsession).
    destruct (List.find _ keys) as [found|] eqn:Hfind.
    + apply find_some in Hfind as [_ Hdec].
      apply bool_decide_eq_true in Hdec.
      destruct found; [contradiction | reflexivity].
    + apply list_elem_of_In in Hin.
      pose proof (find_none _ _ Hfind key Hin) as Hdec. simpl in Hdec.
      apply bool_decide_eq_false in Hdec. contradiction.
Qed.

(** X13: provided the empty string is no session column, the compiled
    filters join the session table exactly when the options ask for it or
    a key of the filters is a session column; otherwise the join is the
    empty string. *)
Theorem parseFilters_joins_session env site websiteId filters options :
  "" ∉ SESSION_COLUMNS ->
  fetchWebsite websiteId = Some site ->
  exists r,
    parseFilters filtersToArray SESSION_COLUMNS dateToString fetchWebsite
      env websiteId filters options = Ok r
    /\ (joinSessionQuery r
        = "inner join session on website_event.session_id = session.session_id"
        \/ joinSessionQuery r = "")
    /\ (joinSessionQuery r
        = "inner join session on website_event.session_id = session.session_id"
        <-> joinSession options = true
            \/ exists key, is_Some (filters !! key) /\ key ∈ SESSION_COLUMNS).
Proof.
  intros Hempty Hsite. unfold parseFilters. rewrite Hsite.
  eexists. split; [reflexivity|]. simpl.
  pose proof (find_session_key (map fst (map_to_list filters)) Hempty) as Hfind.
  assert (Hkeys : (exists key, key ∈ map fst (map_to_list filters)
                               /\ key ∈ SESSION_COLUMNS)
                  <-> exists key, is_Some (filters !! key)
                                  /\ key ∈ SESSION_COLUMNS).
  { split; intros (key & Hin & Hs); exists key; (split; [|assumption]).
    - apply list_elem_of_fmap in Hin as ([k v] & -> & Hkv).
      apply elem_of_map_to_list in Hkv. simpl. eauto.
    - destruct Hin as [v Hv]. apply list_elem_of_fmap.
      exists (key, v). split; [reflexivity|]. now apply elem_of_map_to_list. }
  rewrite <- Hkeys, <- Hfind.
  destruct (joinSession options), (truthy (List.find _ _)); simpl.
  all: split; [auto|]; split; try discriminate; auto.
  all: intros [H|H]; discriminate.
Qed.

(** X12: the date query is empty when the filters have no start date,
    also when the site has a reset date; with a start date it binds the
    start date of the parameters, which is the clamped one, first, and
    with an end date the value under endDate second. *)
Theorem getDateQuery_binds env db site websiteId filters options :
  fetchWebsite websiteId = Some site ->
  exists r,
    parseFilters' env websiteId filters options = Ok r
    /\ (truthyValue (valueOf filters "startDate") = false -> dateQuery r = "")
    /\ (truthyValue (valueOf filters "startDate") = true ->
        truthyValue (valueOf filters "endDate") = false ->
        bindTemplate db (params r) (dateQuery r)
        = ("and website_event.created_at >= " +:+ positional db 1 None,
           [dateValue (maxDate (asDate (valueOf filters "startDate"))
                               (resetAt site))]))
    /\ (truthyValue (valueOf filters "startDate") = true ->
        truthyValue (valueOf filters "endDate") = true ->
        bindTemplate db (params r) (dateQuery r)
        = ("and website_event.created_at between " +:+ positional db 1 None
           +:+ " and " +:+ positional db 2 None,
           [dateValue (maxDate (asDate (valueOf filters "startDate"))
                               (resetAt site));
            valueOf (getFilterParams' filters) "endDate"])).
Proof.
  intros Hsite. unfold parseFilters. rewrite Hsite.
  eexists. split; [reflexivity|]. simpl. unfold getDateQuery.
  split; [now intros ->|]. split.
  - intros -> ->.
    change "and website_event.created_at >= {{startDate}}"
      with (surface [Text "and website_event.created_at >= ";
                     Param "startDate" None]).
    rewrite bindTemplate_pieces by reflexivity. simpl.
    rewrite append_empty_r. f_equal. f_equal. unfold valueOf.
    now simplify_map_eq.
  - intros -> ->.
    change "and website_event.created_at between {{startDate}} and {{endDate}}"
      with (surface [Text "and website_event.created_at between ";
                     Param "startDate" None; Text " and ";
                     Param "endDate" None]).
    rewrite bindTemplate_pieces by reflexivity. simpl.
    rewrite append_empty_r. f_equal. unfold valueOf.
    now simplify_map_eq.
Qed.

End FilterParams.


Lemma parseFilters_joins_session_witness :
  ("" ∉ ["browser"; "os"])
  /\ exists r,
      parseFilters (theFilters []) ["browser"; "os"] isoString fetchExample
        postgres "site-1" (<["os" := VStr "Linux"]> ∅) noOptions = Ok r
      /\ joinSessionQuery r
         = "inner join session on website_event.session_id = session.session_id".
Proof.
  assert (Hempty : "" ∉ ["browser"; "os"]).
  { intros H. repeat (apply elem_of_cons in H as [H|H]; [discriminate|]).
    now apply elem_of_nil in H. }
  split; [exact Hempty|].
  destruct (parseFilters_joins_session (theFilters []) ["browser"; "os"]
              isoString fetchExample postgres exampleSite "site-1"
              (<["os" := VStr "Linux"]> ∅) noOptions Hempty eq_refl)
    as (r & Hr & _ & Hjoin).
  exists r. split; [exact Hr|]. apply Hjoin. right. exists "os".
  split; [eexists; reflexivity|].
  apply list_elem_of_further, list_elem_of_here.
Defined.

Lemma getDateQuery_binds_witness :
  fetchExample "site-1" = Some exampleSite
  /\ exists r,
      parseFilters (theFilters []) [] isoString fetchExample postgres "site-1"
        (<["startDate" := VDate 40]> ∅) noOptions = Ok r
      /\ bindTemplate POSTGRESQL (params r) (dateQuery r)
         = ("and website_event.created_at >= $1", [VDate 100]).
Proof.
  split; [reflexivity|].
  destruct (getDateQuery_binds (theFilters []) [] isoString fetchExample
              postgres POSTGRESQL exampleSite "site-1"
              (<["startDate" := VDate 40]> ∅) noOptions eq_refl)
    as (r & Hr & _ & Hopen & _).
  exists r. split; [exact Hr|].
  rewrite (Hopen eq_refl eq_refl). reflexivity.
Defined.

(** ** Pages *)

Lemma pretty_Z_no_opening (z : Z) :
  every (fun c => negb (isOpening c)) (pretty z) = true.
Proof.
  destruct z as [|p|p]; [reflexivity| |].
  - apply (pretty_nat_no_opening_N (N.pos p)).
  - change (pretty (Z.neg p)) with ("-" +:+ pretty (N.pos p)).
    rewrite every_append. simpl. apply (pretty_nat_no_opening_N (N.pos p)).
Qed.

Section Pages.

Variable DEFAULT_PAGE_SIZE : Z.
Variable Row Where : Type.
Variable client_findMany : string -> FindManyArgs.t Where -> result (list Row).
Variable client_count : string -> option Where -> result Z.
Variable prisma_rawQuery : string -> list value -> result (list Row).
Variable num : Row -> value.

Local Abbreviation size' := (size DEFAULT_PAGE_SIZE).
Local Abbreviation findManyArgs' := (findManyArgs DEFAULT_PAGE_SIZE Where).
Local Abbreviation limitStatement' := (limitStatement DEFAULT_PAGE_SIZE).
Local Abbreviation statements' := (statements DEFAULT_PAGE_SIZE).
Local Abbreviation pagedQuery' :=
  (pagedQuery DEFAULT_PAGE_SIZE Row Where client_findMany client_count).
Local Abbreviation pagedRawQuery' :=
  (pagedRawQuery DEFAULT_PAGE_SIZE Row prisma_rawQuery num).
Local Abbreviation rawQuery' := (rawQuery Row prisma_rawQuery).

(** X15: with a positive page size, page p is read with take the size
    and skip the size times p - 1, by [pagedQuery] as the argument of
    [findMany] and by [pagedRawQuery] as limit and offset, so the page
    after it skips what it skips and takes; the first page skips
    nothing, and a page below 1 gives a negative skip, which the code
    passes on. The numbers are safe integers. *)
Theorem consecutive_pages_adjoin model criteria env query queryParams
    pageSize orderBy sortDescending p :
  let ofPage q := {| PageParams.page := Some q; PageParams.pageSize := pageSize;
                 PageParams.orderBy := orderBy;
                 PageParams.sortDescending := sortDescending |} in
  let take := size DEFAULT_PAGE_SIZE (ofPage p) in
  let ordering :=
    match orderBy with
    | Some key =>
        if truthyString key
        then Some [(key, if sortDescending then "desc" else "asc")]
        else FindManyArgs.orderBy criteria
    | None => FindManyArgs.orderBy criteria
    end in
  let orderLine :=
    match orderBy with
    | Some key =>
        if truthyString key
        then "order by " +:+ key +:+ " "
             +:+ (if sortDescending then "desc" else "asc")
             +:+ String "010" ""
        else ""
    | None => ""
    end in
  let structured q r :=
    exists data count,
      client_findMany model
        {| FindManyArgs.where_ := FindManyArgs.where_ criteria;
           FindManyArgs.take := Some take;
           FindManyArgs.skip := Some (take * (q - 1))%Z;
           FindManyArgs.orderBy := ordering |} = Ok data
      /\ client_count model (FindManyArgs.where_ criteria) = Ok count
      /\ r = {| PagedResult.data := data; PagedResult.count := VNum count;
                PagedResult.page := q; PagedResult.pageSize := take;
                PagedResult.orderBy := orderBy |} in
  let raw q r :=
    exists row rows data,
      rawQuery' env ("select count(*) as num from (" +:+ query +:+ ") t")
        queryParams = Ok (row :: rows)
      /\ rawQuery' env
           (query +:+ orderLine +:+ "limit " +:+ pretty take +:+ " offset "
            +:+ pretty (take * (q - 1))%Z) queryParams = Ok data
      /\ r = {| PagedResult.data := data; PagedResult.count := num row;
                PagedResult.page := q; PagedResult.pageSize := take;
                PagedResult.orderBy := orderBy |} in
  (0 < take)%Z ->
  isSafeInteger take -> isSafeInteger p -> isSafeInteger (p + 1) ->
  isSafeInteger (p - 1) ->
  isSafeInteger (take * (p - 1)) -> isSafeInteger (take * p) ->
  (forall r, pagedQuery' model criteria (Some (ofPage p)) = Ok r <-> structured p r)
  /\ (forall r, pagedQuery' model criteria (Some (ofPage (p + 1)%Z)) = Ok r
                <-> structured (p + 1)%Z r)
  /\ (forall r, pagedRawQuery' env query queryParams (Some (ofPage p)) = Ok r
                <-> raw p r)
  /\ (forall r, pagedRawQuery' env query queryParams (Some (ofPage (p + 1)%Z)) = Ok r
                <-> raw (p + 1)%Z r)
  /\ (take * (p + 1 - 1) = take * (p - 1) + take)%Z
  /\ ((take * (p - 1))%Z = 0%Z <-> p = 1%Z)
  /\ ((take * (p - 1) < 0)%Z <-> (p < 1)%Z).
Proof.
  intros ofPage take ordering orderLine structured raw Hpos _ _ _ _ _ _.
  assert (Hltb : (0 <? take)%Z = true) by now apply Z.ltb_lt.
  assert (Hq : forall q r,
             pagedQuery' model criteria (Some (ofPage q)) = Ok r
             <-> structured q r).
  { intros q r.
    pose proof (pagedQuery_iff DEFAULT_PAGE_SIZE Row Where client_findMany
                  client_count model criteria (Some (ofPage q)) r) as H.
    cbv zeta in H. rewrite findManyArgs_spelled in H.
    change (size DEFAULT_PAGE_SIZE (default PageParams.empty (Some (ofPage q))))
      with take in H.
    rewrite Hltb in H. exact H. }
  assert (Hraw : forall q r,
             pagedRawQuery' env query queryParams (Some (ofPage q)) = Ok r
             <-> raw q r).
  { intros q r.
    pose proof (pagedRawQuery_iff DEFAULT_PAGE_SIZE Row prisma_rawQuery num
                  env query queryParams (Some (ofPage q)) r) as H.
    cbv zeta in H. rewrite statements_spelled in H.
    change (size DEFAULT_PAGE_SIZE (default PageParams.empty (Some (ofPage q))))
      with take in H.
    rewrite Hltb in H. rewrite H. unfold raw, orderLine. simpl.
    destruct orderBy as [key|]; [destruct (truthyString key)|];
      repeat (rewrite ?append_assoc, ?append_empty_r; simpl); reflexivity. }
  split; [apply Hq|]. split; [apply Hq|]. split; [apply Hraw|].
  split; [apply Hraw|]. repeat split; nia.
Qed.

(** X16: an error of a read is the error of the paged query, unchanged,
    and ends it: the count is not read after the rows have failed, and
    the rows of a raw query are not read after its count has failed; on
    an unknown database type the raw query is rejected before the
    executor is called, and a count that returns no row is a type
    error. *)
Theorem paged_errors_propagate model criteria env query queryParams pageParams :
  let given := default PageParams.empty pageParams in
  (forall e,
      client_findMany model (findManyArgs' criteria given) = Err e ->
      pagedQuery' model criteria pageParams = Err e)
  /\ (forall data e,
         client_findMany model (findManyArgs' criteria given) = Ok data ->
         client_count model (FindManyArgs.where_ criteria) = Err e ->
         pagedQuery' model criteria pageParams = Err e)
  /\ (getDatabaseType env = UnknownDatabase ->
      pagedRawQuery' env query queryParams pageParams
      = Err (Error "Unknown database."))
  /\ (forall e,
         rawQuery' env ("select count(*) as num from (" +:+ query +:+ ") t")
           queryParams = Err e ->
         pagedRawQuery' env query queryParams pageParams = Err e)
  /\ (rawQuery' env ("select count(*) as num from (" +:+ query +:+ ") t")
        queryParams = Ok [] ->
      exists message,
        pagedRawQuery' env query queryParams pageParams
        = Err (TypeError message))
  /\ (forall row rows e,
         rawQuery' env ("select count(*) as num from (" +:+ query +:+ ") t")
           queryParams = Ok (row :: rows) ->
         rawQuery' env (query +:+ statements' given) queryParams = Err e ->
         pagedRawQuery' env query queryParams pageParams = Err e).
Proof.
  intros given. unfold pagedQuery, pagedRawQuery. fold given.
  repeat split.
  - intros e ->. reflexivity.
  - intros data e -> ->. reflexivity.
  - intros Hdb. unfold rawQuery at 1. now rewrite Hdb.
  - intros e ->. reflexivity.
  - intros ->. eexists. reflexivity.
  - intros row rows e -> ->. reflexivity.
Qed.

Lemma statement_snoc_text db position pieces s :
  statement db position (pieces ++ [Text s])
  = statement db position pieces +:+ s.
Proof.
  revert position.
  induction pieces as [|[t|name type] pieces IH]; intros position; simpl.
  - apply append_empty_r.
  - now rewrite IH, append_assoc.
  - now rewrite IH, append_assoc.
Qed.

Lemma names_snoc_text pieces s : names (pieces ++ [Text s]) = names pieces.
Proof. rewrite names_app. simpl. apply app_nil_r. Qed.

Lemma statements_no_opening pageParams :
  default true (every (fun c => negb (isOpening c))
                  <$> PageParams.orderBy pageParams) = true ->
  every (fun c => negb (isOpening c)) (statements' pageParams) = true.
Proof.
  intros Horder. unfold statements, orderStatement, limitStatement.
  destruct (PageParams.orderBy pageParams) as [key|]; simpl in *.
  - destruct (truthyString key), (0 <? size' pageParams)%Z,
      (PageParams.sortDescending pageParams); simpl;
      repeat (rewrite ?every_append, ?Horder, ?pretty_Z_no_opening; simpl);
      reflexivity.
  - destruct (0 <? size' pageParams)%Z; simpl;
      repeat (rewrite ?every_append, ?pretty_Z_no_opening; simpl);
      reflexivity.
Qed.

(** X17: for a query put together from text without an opening brace and
    from placeholders of word characters, and an ordering key without an
    opening brace, the count and the rows of a raw paged query are read
    with the same parameters, and the statement of the rows is the bound
    query followed by the ordering and the limit as they are. *)
Theorem paging_keeps_parameters db data pieces pageParams :
  forallb wellFormed pieces = true ->
  default true (every (fun c => negb (isOpening c))
                  <$> PageParams.orderBy pageParams) = true ->
  bindTemplate db data
    ("select count(*) as num from (" +:+ surface pieces +:+ ") t")
  = ("select count(*) as num from (" +:+ statement db 1 pieces +:+ ") t",
     map (valueOf data) (names pieces))
  /\ bindTemplate db data (surface pieces +:+ statements' pageParams)
     = (statement db 1 pieces +:+ statements' pageParams,
        map (valueOf data) (names pieces)).
Proof.
  intros Hwf Horder. split.
  - change ("select count(*) as num from (" +:+ surface pieces +:+ ") t")
      with (surface (Text "select count(*) as num from (" :: pieces)
            +:+ ") t").
    rewrite <- (append_empty_r ") t").
    change (") t" +:+ "") with (surface [Text ") t"]).
    rewrite <- surface_app, bindTemplate_pieces.
    + rewrite names_snoc_text, statement_snoc_text. reflexivity.
    + rewrite forallb_app. simpl. now rewrite Hwf.
  - rewrite <- (append_empty_r (statements' pageParams)) at 1.
    change (statements' pageParams +:+ "")
      with (surface [Text (statements' pageParams)]).
    rewrite <- surface_app, bindTemplate_pieces.
    + rewrite names_snoc_text, statement_snoc_text. reflexivity.
    + rewrite forallb_app, Hwf. simpl.
      now rewrite statements_no_opening.
Qed.

End Pages.

Lemma consecutive_pages_adjoin_witness :
  (0 < size 10 {| PageParams.page := Some 3%Z; PageParams.pageSize := Some 25%Z;
                  PageParams.orderBy := None;
                  PageParams.sortDescending := false |})%Z
  /\ isSafeInteger 25 /\ isSafeInteger 3 /\ isSafeInteger (25 * 3)
  /\ pagedRawQuery 10 (string * list value) echo sevenNum postgres
       "select a from t " ∅
       (Some {| PageParams.page := Some 4%Z; PageParams.pageSize := Some 25%Z;
                PageParams.orderBy := None;
                PageParams.sortDescending := false |})
     = Ok {| PagedResult.data := [("select a from t limit 25 offset 75", [])];
             PagedResult.count := VNum 7; PagedResult.page := 4;
             PagedResult.pageSize := 25; PagedResult.orderBy := None |}.
Proof.
  assert (Hsafe : forall n, (Z.abs n <=? 9007199254740991)%Z = true ->
                            isSafeInteger n).
  { intros n H. now apply Z.leb_le in H. }
  split; [reflexivity|]. repeat (split; [now apply Hsafe|]).
  destruct (consecutive_pages_adjoin 10 (string * list value) unit noRows
              emptyCount echo sevenNum "website" noCriteria postgres
              "select a from t " ∅ (Some 25%Z) None false 3%Z
              eq_refl (Hsafe 25%Z eq_refl) (Hsafe 3%Z eq_refl)
              (Hsafe 4%Z eq_refl) (Hsafe 2%Z eq_refl) (Hsafe 50%Z eq_refl)
              (Hsafe 75%Z eq_refl))
    as (_ & _ & _ & Hnext & _).
  apply Hnext. eexists _, _, _. repeat split; reflexivity.
Defined.

Lemma paging_keeps_parameters_witness :
  forallb wellFormed [Text "select * from session where id = "; Param "id" None]
  = true
  /\ bindTemplate POSTGRESQL exampleData
       ("select * from session where id = {{id}}"
        +:+ statements 10
              {| PageParams.page := Some 2%Z; PageParams.pageSize := None;
                 PageParams.orderBy := Some "id";
                 PageParams.sortDescending := true |})
     = (join ["select * from session where id = $1order by id desc";
              "limit 10 offset 10"],
        [VNum 5]).
Proof.
  split; [reflexivity|].
  destruct (paging_keeps_parameters 10 POSTGRESQL exampleData
              [Text "select * from session where id = "; Param "id" None]
              {| PageParams.page := Some 2%Z; PageParams.pageSize := None;
                 PageParams.orderBy := Some "id";
                 PageParams.sortDescending := true |} eq_refl eq_refl)
    as [_ Hrows].
  etransitivity; [exact Hrows | reflexivity].
Defined.

(** ** Search predicate *)

Lemma parseFilter_nest mode query keys operation :
  keys <> [] ->
  parseFilter mode query (nest keys (JString operation))
  = Ok (nest keys (searchMatch mode query operation)).
Proof.
  induction keys as [|key [|key' keys] IH]; [congruence|reflexivity|].
  intros _.
  change (nest (key :: key' :: keys) (JString operation))
    with (JObject [(key, nest (key' :: keys) (JString operation))]).
  change (nest (key :: key' :: keys) (searchMatch mode query operation))
    with (JObject [(key, nest (key' :: keys) (searchMatch mode query operation))]).
  assert (Hinner := IH ltac:(discriminate)).
  change (nest (key' :: keys) (JString operation))
    with (JObject [(key', nest keys (JString operation))]) in *.
  simpl. simpl in Hinner. now rewrite Hinner.
Qed.

Lemma mapResult_ok {A B C} (f : B -> result C) (h : A -> B) (g : A -> C) l :
  (forall x, x ∈ l -> f (h x) = Ok (g x)) ->
  mapResult f (map h l) = Ok (map g l).
Proof.
  induction l as [|x l IH]; intros Hl; simpl; [reflexivity|].
  rewrite (Hl x) by apply list_elem_of_here. simpl.
  rewrite IH; [reflexivity|].
  intros y Hy. apply Hl. now apply list_elem_of_further.
Qed.

Lemma mapResult_err {A B} (f : A -> result B) pre x post e :
  (forall y, y ∈ pre -> exists r, f y = Ok r) ->
  f x = Err e ->
  mapResult f (pre ++ x :: post) = Err e.
Proof.
  intros Hpre Hx. induction pre as [|y pre IH]; simpl.
  - now rewrite Hx.
  - destruct (Hpre y) as [r ->]; [apply list_elem_of_here|]. simpl.
    rewrite IH; [reflexivity|].
    intros z Hz. apply Hpre. now apply list_elem_of_further.
Qed.

(** X18: for a query that is not empty and fields that each name at
    least one key, the search predicate is the disjunction, under AND and
    OR, of one predicate for each field in the order given; the predicate
    of a field repeats the keys of the field, to any depth, around the
    match of the operation with the query. The match asks for the
    insensitive mode on PostgreSQL only. An empty query gives no
    predicate, whatever the fields are. *)
Theorem getSearchParameters_fields env query fields :
  query <> "" ->
  (forall field, field ∈ fields -> fst field <> []) ->
  getSearchParameters env query (map searchField fields)
  = Ok (Some (JObject [("AND", JObject [("OR", JArray
          (map (fun field =>
                  nest (fst field)
                       (searchMatch (getQueryMode env) query (snd field)))
               fields))])]))
  /\ (forall operation,
         operation <> "mode" ->
         searchMatch (getQueryMode env) query operation
         = match getDatabaseType env with
           | POSTGRESQL =>
               JObject [(operation, JString query);
                        ("mode", JString "insensitive")]
           | _ => JObject [(operation, JString query)]
           end)
  /\ (forall filters, getSearchParameters env "" filters = Ok None).
Proof.
  intros Hquery Hfields. split; [|split].
  - unfold getSearchParameters.
    apply truthyString_nonempty in Hquery. rewrite Hquery.
    rewrite (mapResult_ok _ searchField
               (fun field =>
                  nest (fst field)
                       (searchMatch (getQueryMode env) query (snd field)))).
    + reflexivity.
    + intros field Hin. unfold searchField.
      apply parseFilter_nest, (Hfields _ Hin).
  - intros operation Hmode. unfold searchMatch, getQueryMode, spread.
    destruct (getDatabaseType env); simpl; try reflexivity.
    destruct (String.eqb_spec operation "mode"); [contradiction|reflexivity].
  - reflexivity.
Qed.

Lemma getSearchParameters_fields_witness :
  "ann" <> ""
  /\ getSearchParameters postgres "ann"
       [JObject [("username", JString "contains")];
        JObject [("team", JObject [("name", JString "startsWith")])]]
     = Ok (Some (JObject [("AND", JObject [("OR", JArray
         [JObject [("username",
                    JObject [("contains", JString "ann");
                             ("mode", JString "insensitive")])];
          JObject [("team",
                    JObject [("name",
                              JObject [("startsWith", JString "ann");
                                       ("mode", JString "insensitive")])])]])])])).
Proof.
  assert (Hquery : "ann" <> "") by discriminate.
  split; [exact Hquery|].
  destruct (getSearchParameters_fields postgres "ann"
              [(["username"], "contains"); (["team"; "name"], "startsWith")]
              Hquery) as (Hshape & _ & _).
  - intros field Hin.
    repeat (apply elem_of_cons in Hin as [->|Hin]; [discriminate|]).
    now apply elem_of_nil in Hin.
  - exact Hshape.
Defined.

Lemma parseFilter_nest_err mode query keys bad e :
  (forall s, bad <> JString s) ->
  parseFilter mode query bad = Err e ->
  parseFilter mode query (nest keys bad) = Err e.
Proof.
  intros Hbad Herr. induction keys as [|key keys IH]; [exact Herr|].
  change (nest (key :: keys) bad) with (JObject [(key, nest keys bad)]).
  simpl. destruct (nest keys bad) as [s| | | |] eqn:Hnest;
    [|now rewrite IH..].
  destruct keys; simpl in Hnest; [now destruct (Hbad s) | discriminate].
Qed.

(** Whatever [parseFilter] throws is a type error. *)
Lemma parseFilter_throws_TypeError mode query :
  forall filter e,
    parseFilter mode query filter = Err e -> exists message, e = TypeError message.
Proof.
  fix IH 1. intros [s|entries|items| |] e; simpl.
  - destruct s; [|discriminate]. intros [= <-]. eexists. reflexivity.
  - destruct entries as [|[key value] rest];
      [intros [= <-]; eexists; reflexivity|].
    pose proof (IH value) as Hrec.
    destruct value as [s|entries'|items'| |]; [discriminate|..];
      (match goal with
       | |- context [parseFilter ?m ?q ?v] =>
           destruct (parseFilter m q v) as [inner|e'] eqn:Hinner;
             simpl; [discriminate|]; intros [= <-]; now apply Hrec
       end).
  - destruct items as [|value rest];
      [intros [= <-]; eexists; reflexivity|].
    pose proof (IH value) as Hrec.
    destruct value as [s|entries'|items'| |]; [discriminate|..];
      (match goal with
       | |- context [parseFilter ?m ?q ?v] =>
           destruct (parseFilter m q v) as [inner|e'] eqn:Hinner;
             simpl; [discriminate|]; intros [= <-]; now apply Hrec
       end).
  - intros [= <-]. eexists. reflexivity.
  - intros [= <-]. eexists. reflexivity.
Qed.

(** [map] throws what the first element that throws throws. *)
Lemma mapResult_throws {A B} (f : A -> result B) l x e :
  x ∈ l -> f x = Err e ->
  exists y e', y ∈ l /\ f y = Err e' /\ mapResult f l = Err e'.
Proof.
  intros Hin Hx. induction l as [|z l IH]; [now apply elem_of_nil in Hin|].
  simpl. destruct (f z) as [r|e'] eqn:Hz.
  - apply elem_of_cons in Hin as [->|Hin]; [congruence|].
    destruct (IH Hin) as (y & e'' & Hy & Hfy & Hmap).
    exists y, e''. split; [now apply list_elem_of_further|].
    split; [exact Hfy|]. simpl. now rewrite Hmap.
  - exists z, e'. split; [apply list_elem_of_here|]. split; [exact Hz|].
    reflexivity.
Qed.

(** X19: a search filter that has no first entry, at any depth (an empty
    object or array, a number or a boolean, [null] or [undefined] where
    an object should be), makes the whole call fail with a type error
    when the query is not empty, whatever the other filters are. *)
Theorem getSearchParameters_malformed env query pre keys bad post :
  query <> "" ->
  bad ∈ [JObject []; JArray []; JOther; JNull] ->
  exists message,
    getSearchParameters env query (pre ++ nest keys bad :: post)
    = Err (TypeError message).
Proof.
  intros Hquery Hbad. unfold getSearchParameters.
  apply truthyString_nonempty in Hquery. rewrite Hquery.
  assert (exists e,
             parseFilter (getQueryMode env) query (nest keys bad) = Err e)
    as [e Herr].
  { repeat (apply elem_of_cons in Hbad as [->|Hbad]);
      [..|now apply elem_of_nil in Hbad];
      eexists; apply parseFilter_nest_err; try discriminate; reflexivity. }
  assert (Hin : nest keys bad ∈ (pre ++ nest keys bad :: post)%list).
  { apply elem_of_app. right. apply list_elem_of_here. }
  destruct (mapResult_throws _ _ _ _ Hin Herr) as (y & e' & _ & Hy & Hmap).
  destruct (parseFilter_throws_TypeError _ _ _ _ Hy) as [message ->].
  exists message. now rewrite Hmap.
Qed.

Lemma getSearchParameters_malformed_witness :
  "ann" <> ""
  /\ exists message,
      getSearchParameters mysql "ann"
        [JString ""; JObject [("username", JString "contains")];
         JObject [("team", JObject [])]]
      = Err (TypeError message).
Proof.
  assert (Hquery : "ann" <> "") by discriminate.
  split; [exact Hquery|].
  apply (getSearchParameters_malformed mysql "ann"
           [JString ""; JObject [("username", JString "contains")]]
           ["team"] (JObject []) [] Hquery).
  apply list_elem_of_here.
Defined.
